(** * date_analytics.py: scoring pipeline, report and currency converter

    A shallow embedding of the Streamlit script [date_analytics.py]:

    - binary64 arithmetic is IEEE 754 arithmetic on [spec_float] (the
      executable specification of the Standard Library), a missing value of
      a float column being NaN, as in pandas;
    - Python values coming out of [response.json()] are a tagged union, a
      JSON object being a finite map with string keys;
    - the script itself runs in a writer/error monad: it emits Streamlit
      elements, may be halted by [st.stop()] and may die of an uncaught
      exception;
    - calls into pandas, scikit-learn and reportlab are modelled from what
      these libraries do in the versions the script runs on: it calls
      [iteritems], which pandas has only before 2.0.

    Definitions come first (sections 1 to 12), facts about them after. *)

From Stdlib Require Import ZArith QArith Qabs Lia Bool List String Ascii.
From Stdlib Require Import SpecFloat DecimalString Permutation.
From stdpp Require Import base option gmap strings.
Import ListNotations.

#[local] Set Warnings "-register-all".
#[local] Close Scope Q_scope.
#[local] Open Scope string_scope.
#[local] Open Scope Z_scope.

(** ** 1. Binary64 floating point *)

Module B64.

Definition prec : Z := 53.
Definition emax : Z := 1024.

Abbreviation float := spec_float.

Definition mul : float -> float -> float := SFmul prec emax.
Definition add : float -> float -> float := SFadd prec emax.
Definition div : float -> float -> float := SFdiv prec emax.
Definition ltb : float -> float -> bool := SFltb.
Definition leb : float -> float -> bool := SFleb.

(** A well-formed binary64 datum: canonical mantissa, exponent in range. *)
Definition valid (x : float) : bool := valid_binary prec emax x.

Definition is_nan (x : float) : bool :=
  match x with S754_nan => true | _ => false end.

Definition is_zero (x : float) : bool :=
  match x with S754_zero _ => true | _ => false end.

Definition is_infinite (x : float) : bool :=
  match x with S754_infinity _ => true | _ => false end.

Definition is_finite (x : float) : bool :=
  match x with S754_zero _ | S754_finite _ _ _ => true | _ => false end.

(** The literals of the script, as the nearest binary64 values. *)
Definition one : float := S754_finite false 4503599627370496 (-52).
Definition lit_0_7 : float := S754_finite false 6305039478318694 (-53).
Definition lit_0_3 : float := S754_finite false 5404319552844595 (-54).
Definition lit_0_2 : float := S754_finite false 7205759403792794 (-55).

(** [float(n)] for a Python int: nearest binary64, ties to even. The caller
    turns an infinite result into [OverflowError]. *)
Definition of_Z (z : Z) : float := binary_normalize prec emax z 0 false.

(** The exact rational value of a finite datum (0 for infinities and NaN). *)
Definition to_Q (x : float) : Q :=
  match x with
  | S754_finite s m e =>
      (inject_Z (if s then Z.neg m else Z.pos m) * Qpower (2 # 1) e)%Q
  | _ => 0%Q
  end.

(** [math.ceil] of a finite datum. *)
Definition ceil (x : float) : option Z :=
  match x with
  | S754_zero _ => Some 0
  | S754_finite s m e =>
      let n := if s then Z.neg m else Z.pos m in
      Some (if 0 <=? e then n * 2 ^ e else - ((- n) / 2 ^ (- e)))
  | _ => None
  end.




End B64.

Abbreviation float := spec_float.

(** ** 2. Python values and the operators the script applies to them *)

Inductive exn :=
  | TypeError
  | AttributeError
  | KeyError
  | IndexError
  | ValueError
  | ZeroDivisionError
  | OverflowError
  | External (msg : string).   (* raised by a library: I/O, network, parsing *)

Inductive result (A : Type) :=
  | Ok (a : A)
  | Raise (e : exn).
Arguments Ok {A} a.
Arguments Raise {A} e.

#[global] Instance result_ret : MRet result := @Ok.
#[global] Instance result_bind : MBind result := fun A B f m =>
  match m with Ok a => f a | Raise e => Raise e end.

(** What [json.loads] can return. *)
Inductive pyval :=
  | PNone
  | PBool (b : bool)
  | PInt (z : Z)
  | PFloat (f : float)
  | PStr (s : string)
  | PList (l : list pyval)
  | PDict (d : gmap string pyval).

(** [bool(v)] *)
Definition truthy (v : pyval) : bool :=
  match v with
  | PNone => false
  | PBool b => b
  | PInt z => negb (z =? 0)
  | PFloat f => negb (B64.is_zero f)
  | PStr s => negb (String.eqb s "")
  | PList l => match l with [] => false | _ => true end
  | PDict d => negb (bool_decide (d = ∅))
  end.

Fixpoint is_prefix (p s : string) : bool :=
  match p, s with
  | EmptyString, _ => true
  | String a p', String b s' => Ascii.eqb a b && is_prefix p' s'
  | _, _ => false
  end.

Fixpoint is_substring (p s : string) : bool :=
  is_prefix p s ||
  match s with
  | EmptyString => false
  | String _ s' => is_substring p s'
  end.

(** [key in v] for a str [key] *)
Definition py_contains (key : string) (v : pyval) : result bool :=
  match v with
  | PDict d => Ok (bool_decide (is_Some (d !! key)))
  | PList l =>
      Ok (existsb (fun x => match x with PStr s => String.eqb s key | _ => false end) l)
  | PStr s => Ok (is_substring key s)
  | _ => Raise TypeError
  end.

(** [v[key]] for a str [key] *)
Definition py_getitem (v : pyval) (key : string) : result pyval :=
  match v with
  | PDict d => match d !! key with Some x => Ok x | None => Raise KeyError end
  | _ => Raise TypeError
  end.

(** [v.get(key, None)] *)
Definition py_get (v : pyval) (key : string) : result pyval :=
  match v with
  | PDict d => Ok (default PNone (d !! key))
  | _ => Raise AttributeError
  end.

Inductive number :=
  | NInt (z : Z)
  | NFloat (f : float).

Definition as_number (v : pyval) : option number :=
  match v with
  | PBool b => Some (NInt (if b then 1 else 0))
  | PInt z => Some (NInt z)
  | PFloat f => Some (NFloat f)
  | _ => None
  end.

(** Conversion of an operand to a C double, as float arithmetic does it. *)
Definition to_double (n : number) : result float :=
  match n with
  | NFloat f => Ok f
  | NInt z =>
      let f := B64.of_Z z in
      if B64.is_infinite f then Raise OverflowError else Ok f
  end.

(** [x / y] on ints: the correctly rounded quotient. *)
Definition int_truediv (x y : Z) : result float :=
  let s := xorb (x <? 0) (y <? 0) in
  if y =? 0 then Raise ZeroDivisionError
  else if x =? 0 then Ok (S754_zero s)
  else
    let '(q, e, l) := SFdiv_core_binary B64.prec B64.emax (Z.abs x) 0 (Z.abs y) 0 in
    let f := binary_round_aux B64.prec B64.emax s q e l in
    if B64.is_infinite f then Raise OverflowError else Ok f.

(** [a / b] *)
Definition py_truediv (a b : pyval) : result pyval :=
  match as_number a, as_number b with
  | Some (NInt x), Some (NInt y) => f ← int_truediv x y; Ok (PFloat f)
  | Some na, Some nb =>
      x ← to_double na;
      y ← to_double nb;
      if B64.is_zero y then Raise ZeroDivisionError
      else Ok (PFloat (B64.div x y))
  | _, _ => Raise TypeError
  end.

(** [x * b] for a float [x] *)
Definition float_mul (x : float) (b : pyval) : result float :=
  match as_number b with
  | Some nb => y ← to_double nb; Ok (B64.mul x y)
  | None => Raise TypeError
  end.

(** ** 3. The dataset *)

Record Row := {
  Country : string;
  Year : Z;
  GDP : float;         (* GDP Growth (%) *)
  Pop : float          (* Population Growth (%) *)
}.

(** A frame keeps the index label of each row: filtering a frame keeps the
    labels, and [idxmax] and [.loc] speak in labels. [columns] are the
    column labels of the file; the four fields of a [Row] are the cells
    under the four columns the script reads. *)
Record DataFrame := {
  columns : list string;
  rows : list (nat * Row)
}.

(** ** 4. Streamlit: what a run shows, and how it ends *)

(** The pieces of an f-string: literal text and interpolated values. *)
Inductive part :=
  | Lit (s : string)
  | Str (s : string)              (* {s} for a str *)
  | StrList (l : list string)     (* {l} for a list of str *)
  | ExcText (e : exn)             (* {e} for a caught exception *)
  | Fixed2 (x : float).           (* {x:.2f} *)

Definition fstring := list part.

Inductive event :=
  | StError (msg : fstring)
  | StWarning (msg : fstring)
  | StDataframe (df : DataFrame)
  | StSubheader (msg : fstring)
  | StMarkdown (msg : fstring)
  | SidebarError (msg : fstring)
  | SidebarWrite (msg : fstring).

(** [st.stop()] raises a control exception that does not derive from
    [Exception]: no [except Exception] catches it. *)
Inductive outcome (A : Type) :=
  | Done (a : A)
  | Stopped
  | Failed (e : exn).
Arguments Done {A} a.
Arguments Stopped {A}.
Arguments Failed {A} e.

Definition script (A : Type) : Type := list event * outcome A.

#[global] Instance script_ret : MRet script := fun A a => ([], Done a).
#[global] Instance script_bind : MBind script := fun A B f m =>
  match m with
  | (out, Done a) => let '(out', r) := f a in ((out ++ out')%list, r)
  | (out, Stopped) => (out, Stopped)
  | (out, Failed e) => (out, Failed e)
  end.

Definition emit (ev : event) : script unit := ([ev], Done tt).
Definition st_stop {A} : script A := ([], Stopped).

Definition lift {A} (r : result A) : script A :=
  match r with Ok a => ([], Done a) | Raise e => ([], Failed e) end.

(** [try: body  except Exception as e: handler e] *)
Definition try_except {A} (body : script A) (handler : exn -> script A) : script A :=
  match body with
  | (out, Failed e) => let '(out', r) := handler e in ((out ++ out')%list, r)
  | _ => body
  end.

(** ** 5. Loading the dataset (lines 24-38) *)

Definition target_columns : list string :=
  ["Country"; "Year"; "GDP Growth (%)"; "Population Growth (%)"].

(** [str.isspace] on the characters of a Latin-1 decoded file. *)
Definition is_space (c : ascii) : bool :=
  let n := nat_of_ascii c in
  ((9 <=? n) && (n <=? 13) || (28 <=? n) && (n <=? 32) || (n =? 133) || (n =? 160))%nat.

Fixpoint lstrip (s : string) : string :=
  match s with
  | String c s' => if is_space c then lstrip s' else s
  | EmptyString => EmptyString
  end.

Definition rstrip (s : string) : string :=
  String.rev (lstrip (String.rev s)).

(** [str.strip()] *)
Definition strip (s : string) : string := rstrip (lstrip s).

Definition mem (x : string) (l : list string) : bool :=
  existsb (String.eqb x) l.

(** [read] is what [pd.read_csv("imoveis.csv", encoding="latin1")] did. *)
Definition load_imoveis (read : result DataFrame) : script DataFrame :=
  try_except
    (imoveis ← lift read;
     let imoveis := {| columns := map strip (columns imoveis); rows := rows imoveis |} in
     if negb (forallb (fun col => mem col (columns imoveis)) target_columns) then
       let missing_cols :=
         List.filter (fun col => negb (mem col (columns imoveis))) target_columns in
       _ ← emit (StError [Lit "As seguintes colunas estão ausentes no dataset: ";
                          StrList missing_cols;
                          Lit ". Por favor, corrija e tente novamente."]);
       st_stop
     else mret imoveis)
    (fun e =>
       _ ← emit (StError [Lit "Erro ao carregar os dados: "; ExcText e;
                          Lit ". Certifique-se de que o arquivo `imoveis.csv` está no diretório correto e possui os dados esperados."]);
       st_stop).

(** ** 6. Snapshot, null check, score and ranking (lines 40-78) *)

Definition Series := list (nat * float).

(** [Series.max()] of an integer column; [None] on an empty column. *)
Definition year_max (years : list Z) : option Z :=
  match years with
  | [] => None
  | y :: ys => Some (fold_left Z.max ys y)
  end.

(** [imoveis[imoveis["Year"] == imoveis["Year"].max()]] *)
Definition snapshot (imoveis : DataFrame) : list (nat * Row) :=
  match year_max (map (fun ir => Year (snd ir)) (rows imoveis)) with
  | Some ano_mais_recente =>
      List.filter (fun ir => Year (snd ir) =? ano_mais_recente) (rows imoveis)
  | None => []
  end.

(** [dados_recentes[[gdp, pop]].isnull().values.any()] *)
Definition has_null (dados_recentes : list (nat * Row)) : bool :=
  existsb (fun ir => B64.is_nan (GDP (snd ir)) || B64.is_nan (Pop (snd ir))) dados_recentes.

Definition check_nulls (dados_recentes : list (nat * Row)) : script unit :=
  if has_null dados_recentes then
    _ ← emit (StWarning [Lit "Existem valores nulos nas colunas usadas para análise. Por favor, verifique o dataset."]);
    st_stop
  else mret tt.

Definition column (f : Row -> float) (frame : list (nat * Row)) : Series :=
  map (fun ir => (fst ir, f (snd ir))) frame.

(** [series * w] *)
Definition series_scale (s : Series) (w : float) : Series :=
  map (fun ix => (fst ix, B64.mul (snd ix) w)) s.

(** [s1 + s2] for two series over the same index: element by element. *)
Fixpoint series_add (s1 s2 : Series) : Series :=
  match s1, s2 with
  | (i, x) :: s1', (_, y) :: s2' => (i, B64.add x y) :: series_add s1' s2'
  | _, _ => []
  end.

Definition pesos_gdp : float := B64.lit_0_7.
Definition pesos_pop : float := B64.lit_0_3.

(** The right-hand side of lines 51-54. *)
Definition Score (dados_recentes : list (nat * Row)) : Series :=
  series_add (series_scale (column GDP dados_recentes) pesos_gdp)
             (series_scale (column Pop dados_recentes) pesos_pop).

(** A snapshot row with its "Score" cell. *)
Record Scored := { base : Row; score : float }.

(** [dados_recentes["Score"] = series] for a series over the frame's index. *)
Fixpoint assign (frame : list (nat * Row)) (s : Series) : list (nat * Scored) :=
  match frame, s with
  | (i, r) :: frame', (_, x) :: s' => (i, {| base := r; score := x |}) :: assign frame' s'
  | _, _ => []
  end.

Definition with_score (dados_recentes : list (nat * Row)) : list (nat * Scored) :=
  assign dados_recentes (Score dados_recentes).

(** [nanargmax] masks the NaN cells and fills them with -inf before it
    scans. *)
Definition fill_nan (x : float) : float :=
  if B64.is_nan x then S754_infinity true else x.

(** The scan of [argmax]: a later cell replaces the best one only when it is
    strictly greater, so the first greatest cell is kept. *)
Fixpoint argmax_from (best : nat * float) (s : Series) : nat :=
  match s with
  | [] => fst best
  | (i, x) :: s' =>
      if B64.ltb (snd best) x then argmax_from (i, x) s' else argmax_from best s'
  end.

(** [Series.idxmax()], as pandas has it before 3.0 (the script calls
    [iteritems], which only pandas before 2.0 has): [argmax] of an empty
    column raises ValueError; otherwise the label of the first greatest
    cell, the NaN cells counting as -inf; when every cell is NaN the answer
    is NaN, here [None]. *)
Definition idxmax (s : Series) : result (option nat) :=
  match map (fun iy => (fst iy, fill_nan (snd iy))) s with
  | [] => Raise ValueError
  | best :: rest =>
      if forallb (fun iy => B64.is_nan (snd iy)) s then Ok None
      else Ok (Some (argmax_from best rest))
  end.

(** [frame.loc[label]] on a frame with unique integer labels; NaN is none of
    them. *)
Definition loc (frame : list (nat * Scored)) (label : option nat) : result Scored :=
  match label with
  | None => Raise KeyError
  | Some l =>
      match List.find (fun ir => Nat.eqb (fst ir) l) frame with
      | Some ir => Ok (snd ir)
      | None => Raise KeyError
      end
  end.

(** [frame.loc[frame["Country"] == name, col].values[0]] *)
Definition first_of_country (frame : list (nat * Scored)) (name : string)
    (col : Row -> float) : result float :=
  match List.filter (fun ir => String.eqb (Country (base (snd ir))) name) frame with
  | ir :: _ => Ok (col (base (snd ir)))
  | [] => Raise IndexError
  end.

(** Lines 57-59: [(pais_ideal, pib_pais, pop_pais)]. *)
Definition ranker (dados_recentes : list (nat * Scored)) : result (string * float * float) :=
  label ← idxmax (map (fun ir => (fst ir, score (snd ir))) dados_recentes);
  winner ← loc dados_recentes label;
  let pais_ideal := Country (base winner) in
  pib_pais ← first_of_country dados_recentes pais_ideal GDP;
  pop_pais ← first_of_country dados_recentes pais_ideal Pop;
  Ok (pais_ideal, pib_pais, pop_pais).

Definition analise_textual (pais_ideal : string) (pib_pais pop_pais : float) : fstring :=
  [Lit "
🏆 O melhor país para se viver atualmente é **"; Str pais_ideal; Lit "**!

🔹 **Crescimento do PIB**: "; Fixed2 pib_pais; Lit "% ao ano.
🔹 **Crescimento Populacional**: "; Fixed2 pop_pais; Lit "% ao ano.

📊 O "; Str pais_ideal; Lit " apresenta um crescimento econômico sustentável e um equilíbrio populacional adequado.
Isso indica um ambiente favorável para oportunidades de trabalho, qualidade de vida e desenvolvimento social.

🌟 Se você está buscando um local para viver, e a(o) "; Str pais_ideal; Lit " pode ser uma excelente escolha!
"].

(** ** 7. Country names (lines 80-89) *)

(** [countries_get name] says whether [pycountry.countries.get(name=name)]
    finds a record: the reference set is data of that library. *)
Definition invalid_countries (countries_get : string -> bool)
    (dados_recentes : list (nat * Scored)) : list string :=
  let map_data := map (fun ir => strip (Country (base (snd ir)))) dados_recentes in
  List.filter (fun country => negb (countries_get country)) map_data.

Definition validate_countries (countries_get : string -> bool)
    (dados_recentes : list (nat * Scored)) : script (list string) :=
  let invalid := invalid_countries countries_get dados_recentes in
  _ ← (match invalid with
       | [] => mret tt
       | _ => emit (StWarning [Lit "Os seguintes países não foram reconhecidos e podem não aparecer no mapa: ";
                               StrList invalid;
                               Lit ". Verifique se os nomes estão em inglês e correspondem aos padrões internacionais."])
       end);
  mret invalid.

(** Lines 56-89: ranking, narrative and country check on the scored
    snapshot. *)
Definition report (countries_get : string -> bool) (imoveis : DataFrame)
    (dados_recentes : list (nat * Scored)) : script (list string) :=
  '(pais_ideal, pib_pais, pop_pais) ← lift (ranker dados_recentes);
  _ ← emit (StDataframe imoveis);
  _ ← emit (StSubheader [Lit " Análise textual com IA"]);
  _ ← emit (StMarkdown (analise_textual pais_ideal pib_pais pop_pais));
  validate_countries countries_get dados_recentes.

(** Lines 40-89 on a loaded dataset. *)
Definition analyse (countries_get : string -> bool) (imoveis : DataFrame) : script (list string) :=
  let dados_recentes := snapshot imoveis in
  _ ← check_nulls dados_recentes;
  report countries_get imoveis (with_score dados_recentes).

(** Lines 24-89. *)
Definition run (countries_get : string -> bool) (read : result DataFrame) : script (list string) :=
  imoveis ← load_imoveis read;
  analyse countries_get imoveis.

(** ** 8. The train/test split (lines 153-155)

    The split is scikit-learn's: [ceil(0.2 * n)] rows for the test set, the
    rest for training, taken along a seeded permutation of the row
    positions. That permutation, [RandomState(0).permutation(n)], is a
    parameter. The estimator fitted on the training rows (lines 158-164) is
    a floating-point least-squares solver of a library: it is not
    modelled. *)

Definition n_test (n_samples : nat) : result nat :=
  match B64.ceil (B64.mul B64.lit_0_2 (B64.of_Z (Z.of_nat n_samples))) with
  | Some n => Ok (Z.to_nat n)
  | None => Raise ValueError
  end.

Fixpoint take_rows {A} (data : list A) (idx : list nat) : result (list A) :=
  match idx with
  | [] => Ok []
  | i :: idx' =>
      match nth_error data i with
      | Some x => xs ← take_rows data idx'; Ok (x :: xs)
      | None => Raise IndexError
      end
  end.

(** [train_test_split(X, y, test_size=0.2, random_state=0)] on the rows of
    [(X, y)] *)
Definition train_test_split {A} (permutation : nat -> list nat) (data : list A)
    : result (list A * list A) :=
  let n_samples := length data in
  nt ← n_test n_samples;
  let n_train := (n_samples - nt)%nat in
  if (n_train =? 0)%nat then Raise ValueError
  else
    let p := permutation n_samples in
    test ← take_rows data (firstn nt p);
    train ← take_rows data (firstn n_train (skipn nt p));
    Ok (train, test).

(** ** 9. Currency converter (lines 252-289) *)

Definition moedas : list string := ["BRL"; "USD"; "EUR"].

(** Lines 260-270, on the parsed body. *)
Definition rate_of_body (data : pyval) (moeda_origem moeda_destino : string) : result pyval :=
  has_rates ← py_contains "rates" data;
  if negb has_rates then Ok (PInt 1)
  else
    rates ← py_getitem data "rates";
    taxa_origem ← py_get rates moeda_origem;
    taxa_destino ← py_get rates moeda_destino;
    if truthy taxa_origem && truthy taxa_destino then
      py_truediv taxa_destino taxa_origem
    else Ok (PInt 1).

(** [response] is what [requests.get(url).json()] did: a parsed body, or
    an exception of the network or of the parser. *)
Definition get_exchange_rate (response : result pyval)
    (moeda_origem moeda_destino : string) : script pyval :=
  try_except
    (data ← lift response;
     lift (rate_of_body data moeda_origem moeda_destino))
    (fun e =>
       _ ← emit (SidebarError [Lit "Erro ao obter taxa de câmbio: "; ExcText e]);
       mret (PInt 1)).

(** The body of [if st.sidebar.button("Converter")], with the value it
    writes. *)
Definition converter (response : result pyval) (moeda_origem moeda_destino : string)
    (valor : float) : script float :=
  taxa ← get_exchange_rate response moeda_origem moeda_destino;
  valor_convertido ← lift (float_mul valor taxa);
  _ ← emit (SidebarWrite [Lit "O valor convertido de "; Str moeda_origem; Lit " para ";
                          Str moeda_destino; Lit " é: "; Fixed2 valor_convertido]);
  mret valor_convertido.

(** ** 10. Country drill-down (lines 141-142) *)

(** [Series.unique()]: the values in the order of their first appearance,
    found by a scan that remembers the values already seen. *)
Fixpoint unique_from (seen : list string) (l : list string) : list string :=
  match l with
  | [] => []
  | x :: l' =>
      if mem x seen then unique_from seen l' else x :: unique_from (x :: seen) l'
  end.

Definition unique (l : list string) : list string := unique_from [] l.

(** The options of the select box: [dados_recentes["Country"].unique()]. *)
Definition country_options (dados_recentes : list (nat * Scored)) : list string :=
  unique (map (fun ir => Country (base (snd ir))) dados_recentes).

(** [imoveis[imoveis["Country"] == pais_selecionado]] *)
Definition dados_pais (imoveis : DataFrame) (pais_selecionado : string) : list (nat * Row) :=
  List.filter (fun ir => String.eqb (Country (snd ir)) pais_selecionado) (rows imoveis).

(** ** 11. PDF report (lines 181-213)

    The canvas is the sequence of drawing commands it has received.
    [summary] is [dataframe.describe()] as its columns, each with the text
    of its statistics, in the order [iteritems()] yields them; [plot] is
    what the plotting calls of lines 205-207 did: they returned, or one of
    them raised. *)

Inductive pdf_op :=
  | SetFont (font : string) (size : Z)
  | DrawString (x y : Z) (text : fstring)
  | ShowPage
  | DrawInlineImage (x y width height : Z)
  | Save.

(** What [drawInlineImage] can be given as its image. *)
Inductive image_source :=
  | PILImage     (* an image object of PIL *)
  | BytesIO.     (* a file object in memory *)

(** [pdf.drawInlineImage(image, x, y, width=, height=)]: an image that is
    not a file name is read as a PIL image, through its [format] attribute.
    A [BytesIO] has no such attribute. *)
Definition drawInlineImage (image : image_source) (x y width height : Z) : result pdf_op :=
  match image with
  | PILImage => Ok (DrawInlineImage x y width height)
  | BytesIO => Raise AttributeError
  end.

(** The loop of lines 195-201, from the cursor [y_position]: the commands it
    issues and the cursor it leaves. *)
Fixpoint summary_lines (y_position : Z) (summary : list (string * string))
    : list pdf_op * Z :=
  match summary with
  | [] => ([], y_position)
  | (column, values) :: rest =>
      let line := DrawString 50 y_position [Str column; Lit ": "; Str values] in
      let y_position := y_position - 20 in
      if y_position <? 50 then
        let '(ops, y) := summary_lines 750 rest in
        (line :: ShowPage :: SetFont "Helvetica" 12 :: ops, y)
      else
        let '(ops, y) := summary_lines y_position rest in
        (line :: ops, y)
  end.

(** The commands the canvas received, and how the call ended. Line 208 hands
    the [BytesIO] buffer itself to [drawInlineImage]. *)
Definition generate_pdf (summary : list (string * string)) (plot : result unit)
    : list pdf_op * result unit :=
  let '(ops, y_position) := summary_lines 680 summary in
  let drawn :=
    ([SetFont "Helvetica-Bold" 16;
      DrawString 100 750 [Lit "Análise Descritiva dos Dados"];
      SetFont "Helvetica" 12;
      DrawString 50 700 [Lit "Resumo Estatístico dos Dados:"]]
     ++ ops
     ++ [DrawString 50 (y_position - 40) [Lit "Gráfico - Crescimento do PIB"]])%list in
  match (_ ← plot; drawInlineImage BytesIO 100 (y_position - 150) 400 200) with
  | Ok image_op => ((drawn ++ [image_op; Save])%list, Ok tt)
  | Raise e => (drawn, Raise e)
  end.

(** ** 12. Vocabulary of the properties *)

(** The score as the specification words it: 0.7 x GDP + 0.3 x Population. *)
Definition Score_spec (r : Row) : float :=
  B64.add (B64.mul B64.lit_0_7 (GDP r)) (B64.mul B64.lit_0_3 (Pop r)).

(** A rate: a JSON number that is finite and not zero. *)
Definition nonzero_rate (v : pyval) : bool :=
  match v with
  | PInt z => negb (z =? 0)
  | PFloat (S754_finite _ _ _) => true
  | _ => false
  end.





(** A looked-up rate that is absent, or is the number zero. *)
Definition zero_or_absent (ov : option pyval) : bool :=
  match ov with
  | None => true
  | Some (PInt 0) => true
  | Some (PFloat (S754_zero _)) => true
  | _ => false
  end.

(** The three ways the rate lookup fails: the request or the parser raised,
    the body has no "rates" mapping, a currency code is not in the rates. *)
Inductive lookup_fails : result pyval -> string -> string -> Prop :=
  | fails_raised e o d :
      lookup_fails (Raise e) o d
  | fails_no_rates data o d :
      (forall body rates, data = PDict body -> body !! "rates" <> Some (PDict rates)) ->
      lookup_fails (Ok data) o d
  | fails_no_code body rates o d :
      body !! "rates" = Some (PDict rates) ->
      rates !! o = None \/ rates !! d = None ->
      lookup_fails (Ok (PDict body)) o d.

(** What the converter writes in the sidebar for a converted value. *)
Definition converted_line (moeda_origem moeda_destino : string) (x : float) : event :=
  SidebarWrite [Lit "O valor convertido de "; Str moeda_origem; Lit " para ";
                Str moeda_destino; Lit " é: "; Fixed2 x].

Definition rate_notice (e : exn) : event :=
  SidebarError [Lit "Erro ao obter taxa de câmbio: "; ExcText e].

(** The literals of the worked example of the converter. *)
Definition f_0_9 : float := S754_finite false 8106479329266893 (-53).
Definition f_5 : float := S754_finite false 5629499534213120 (-50).
Definition f_7 : float := S754_finite false 7881299347898368 (-50).
Definition f_100 : float := S754_finite false 7036874417766400 (-46).

Definition example_rates : gmap string pyval :=
  <["USD" := PInt 1]> (<["EUR" := PFloat f_0_9]> (<["BRL" := PFloat f_5]> ∅)).

Definition example_body : gmap string pyval :=
  <["base" := PStr "USD"]> (<["rates" := PDict example_rates]> ∅).




Definition missing_columns_error (missing_cols : list string) : event :=
  StError [Lit "As seguintes colunas estão ausentes no dataset: ";
           StrList missing_cols;
           Lit ". Por favor, corrija e tente novamente."].

Definition null_warning : event :=
  StWarning [Lit "Existem valores nulos nas colunas usadas para análise. Por favor, verifique o dataset."].

(** A row with a missing value in one of the two analysis columns. *)
Definition null_row (ir : nat * Row) : Prop :=
  B64.is_nan (GDP (snd ir)) = true \/ B64.is_nan (Pop (snd ir)) = true.

Definition mk_row (c : string) (y : Z) (g p : float) : Row :=
  {| Country := c; Year := y; GDP := g; Pop := p |}.

(** The Score column of the scored snapshot. *)
Definition scores (dados : list (nat * Scored)) : Series :=
  map (fun ir => (fst ir, score (snd ir))) dados.

(** The order of the ranking: a NaN Score is as low as -inf. *)
Definition below (x y : float) : Prop :=
  B64.ltb (fill_nan x) (fill_nan y) = true.

Definition not_above (x y : float) : Prop :=
  B64.leb (fill_nan x) (fill_nan y) = true.

(** Row [w], between the rows [before] and [after] it, is the first row
    attaining the maximum Score: every earlier row is below it and no row is
    above it. *)
Definition first_max (before : list (nat * Scored)) (w : Scored)
    (after : list (nat * Scored)) : Prop :=
  Forall (fun ir => below (score (snd ir)) (score w)) before /\
  Forall (fun ir => not_above (score (snd ir)) (score w)) after.

(** A Score above -inf: a finite number or +inf. *)
Definition above_neg_inf (x : float) : bool := B64.ltb (S754_infinity true) x.

(** The ranker reports the label and the two raw values of the first row
    attaining the maximum Score. *)
Definition reports_winning_row (dados : list (nat * Scored)) : Prop :=
  exists before label w after,
    dados = (before ++ (label, w) :: after)%list /\
    first_max before w after /\
    ranker dados = Ok (Country (base w), GDP (base w), Pop (base w)).

Definition trimmed_labels (dados : list (nat * Scored)) : list string :=
  map (fun ir => strip (Country (base (snd ir)))) dados.

(** Every unrecognized name among the trimmed labels has exactly one entry
    in the warning list. *)
Definition one_entry_per_invalid_name (countries_get : string -> bool)
    (dados : list (nat * Scored)) : Prop :=
  forall name, In name (trimmed_labels dados) -> countries_get name = false ->
    count_occ string_dec (invalid_countries countries_get dados) name = 1%nat.

Definition invalid_warning (invalid : list string) : event :=
  StWarning [Lit "Os seguintes países não foram reconhecidos e podem não aparecer no mapa: ";
             StrList invalid;
             Lit ". Verifique se os nomes estão em inglês e correspondem aos padrões internacionais."].

(** Sample datasets. *)
Definition df_two : DataFrame :=
  {| columns := target_columns;
     rows := [(0%nat, mk_row "Brazil" 2023 f_7 f_7);
              (1%nat, mk_row "Chile" 2024 f_5 f_5);
              (2%nat, mk_row "Peru" 2024 f_7 f_7)] |}.

Definition df_same_label : DataFrame :=
  {| columns := target_columns;
     rows := [(0%nat, mk_row "Brasil" 2024 f_5 f_5);
              (1%nat, mk_row "Brasil" 2024 f_7 f_7)] |}.

Definition df_null : DataFrame :=
  {| columns := target_columns;
     rows := [(0%nat, mk_row "Chile" 2024 f_5 S754_nan);
              (1%nat, mk_row "Peru" 2024 f_7 f_7)] |}.

Definition df_infinite : DataFrame :=
  {| columns := target_columns;
     rows := [(0%nat, mk_row "Chile" 2024 (S754_infinity false) (S754_infinity true))] |}.

(** The Scores are NaN, then -inf. *)
Definition df_nan_first : DataFrame :=
  {| columns := target_columns;
     rows := [(0%nat, mk_row "Chile" 2024 (S754_infinity false) (S754_infinity true));
              (1%nat, mk_row "Peru" 2024 (S754_infinity true) (S754_zero false))] |}.

(** A reference set with two names. *)
Definition two_countries (name : string) : bool :=
  String.eqb name "Chile" || String.eqb name "Peru".

(** The [Year] and [GDP Growth (%)] columns, row by row. *)
Definition year_gdp (imoveis : DataFrame) : list (Z * float) :=
  map (fun ir => (Year (snd ir), GDP (snd ir))) (rows imoveis).

(** GDP = 2 x (Year - 2000) over the years 2000 to 2009. *)
Definition df_linear : DataFrame :=
  {| columns := target_columns;
     rows := map (fun k => (k, mk_row "Chile" (2000 + Z.of_nat k) (B64.of_Z (2 * Z.of_nat k))
                                  (S754_zero false)))
                 (seq 0 10) |}.

(** A string made of whitespace only. *)
Fixpoint all_space (s : string) : bool :=
  match s with
  | EmptyString => true
  | String c s' => is_space c && all_space s'
  end.



(** The summary lines a page still takes from the cursor [y]. *)
Definition lines_left (y : Z) : Z := (y - 50) / 20 + 1.

(** Page breaks and final cursor of the loop for [n] columns from [y]. *)
Definition page_breaks (y n : Z) : Z :=
  if n <? lines_left y then 0 else 1 + (n - lines_left y) / 36.

Definition final_position (y n : Z) : Z :=
  if n <? lines_left y then y - 20 * n else 750 - 20 * ((n - lines_left y) mod 36).

Definition is_show_page (op : pdf_op) : bool :=
  match op with ShowPage => true | _ => false end.

(** A command that sets a font, draws a text or ends a page. *)
Definition is_text_op (op : pdf_op) : bool :=
  match op with
  | SetFont _ _ | DrawString _ _ _ | ShowPage => true
  | DrawInlineImage _ _ _ _ | Save => false
  end.

(** The texts drawn, in order. *)
Fixpoint drawn_texts (ops : list pdf_op) : list fstring :=
  match ops with
  | [] => []
  | DrawString _ _ text :: ops' => text :: drawn_texts ops'
  | _ :: ops' => drawn_texts ops'
  end.

Definition summary_text (cv : string * string) : fstring :=
  [Str (fst cv); Lit ": "; Str (snd cv)].

(** Every text is drawn with its baseline between [lo] and [hi]. *)
Definition texts_within (lo hi : Z) (ops : list pdf_op) : Prop :=
  Forall (fun op => match op with
                    | DrawString x y _ => lo <= y <= hi
                    | _ => True
                    end) ops.

(** * Facts *)

(** ** Binary64 arithmetic *)

Module B64Facts.
Import B64.

Lemma mul_comm (x y : float) : mul x y = mul y x.
Proof.
  unfold mul.
  destruct x as [sx|sx| |sx mx ex], y as [sy|sy| |sy my ey]; simpl;
    try reflexivity; try (now rewrite xorb_comm).
  now rewrite xorb_comm, Pos.mul_comm, Z.add_comm.
Qed.

(** Dividing a mantissa by itself: the quotient is [2^53 * 2^-53], exact. *)
Lemma div_core_self (m : positive) (e : Z) :
  SFdiv_core_binary prec emax (Z.pos m) e (Z.pos m) e
  = (9007199254740992, -53, loc_Exact).
Proof.
  unfold SFdiv_core_binary.
  rewrite !Z.sub_diag.
  change (Z.min (fexp prec emax 0) 0) with (-53).
  change (0 - -53) with 53.
  cbv iota beta.
  destruct (Z.div_eucl (Z.shiftl (Z.pos m) 53) (Z.pos m)) as [q r] eqn:E.
  assert (Hq : q = Z.shiftl (Z.pos m) 53 / Z.pos m)
    by (unfold Z.div; now rewrite E).
  assert (Hr : r = Z.shiftl (Z.pos m) 53 mod Z.pos m)
    by (unfold Z.modulo; now rewrite E).
  rewrite Z.shiftl_mul_pow2 in Hq, Hr by lia.
  rewrite Z.mul_comm, Z.div_mul in Hq by lia.
  rewrite Z.mul_comm, Z.mod_mul in Hr by lia.
  subst q r. unfold new_location, new_location_even, new_location_odd.
  destruct (Z.even (Z.pos m)); reflexivity.
Qed.

Lemma div_self (s : bool) (m : positive) (e : Z) :
  div (S754_finite s m e) (S754_finite s m e) = one.
Proof.
  unfold div, SFdiv. rewrite div_core_self, xorb_nilpotent. reflexivity.
Qed.

(** Multiplying by 1.0 shifts the mantissa 52 places up and the rounding
    shifts it back, losing nothing. *)
Lemma mul_one_r (x : float) : valid x = true -> mul x one = x.
Proof.
  destruct x as [s|s| |s m e]; simpl; intros H;
    try (unfold mul; simpl; now rewrite ?xorb_false_r).
  unfold valid, valid_binary, bounded, canonical_mantissa in H.
  apply andb_prop in H as [Hc Hb]. apply Z.eqb_eq in Hc.
  unfold mul, SFmul, one. rewrite xorb_false_r, Pos.mul_comm.
  unfold binary_round_aux.
  pose (M := (m~0~0~0~0~0~0~0~0~0~0~0~0~0~0~0~0~0~0~0~0~0~0~0~0~0~0
              ~0~0~0~0~0~0~0~0~0~0~0~0~0~0~0~0~0~0~0~0~0~0~0~0~0~0)%positive).
  change (4503599627370496 * m)%positive with M.
  assert (HD : Zdigits2 (Z.pos M) + (e + -52) = Z.pos (digits2_pos m) + e).
  { unfold M. cbn [Zdigits2 digits2_pos]. lia. }
  unfold shr_fexp at 1. rewrite HD, Hc.
  replace (e - (e + -52)) with 52 by lia.
  unfold shr. unfold M. cbn [shr_record_of_loc SpecFloat.iter_pos shr_1 orb].
  cbn [shr_m loc_of_shr_record round_nearest_even].
  unfold shr_fexp. cbn [Zdigits2].
  replace (e + -52 + 52) with e by lia.
  rewrite Hc, Z.sub_diag. cbn [shr shr_record_of_loc shr_m].
  now rewrite Hb.
Qed.

(** The order of [SFcompare] on the data that are not NaN. *)

Ltac order_cases :=
  repeat match goal with s : bool |- _ => destruct s end;
  cbn; try reflexivity; try discriminate;
  repeat match goal with
  | |- context [Z.compare ?a ?b] => destruct (Z.compare_spec a b)
  | H : context [Z.compare ?a ?b] |- _ => destruct (Z.compare_spec a b)
  | |- context [Pos.compare_cont Eq ?a ?b] =>
      change (Pos.compare_cont Eq a b) with (Pos.compare a b);
      destruct (Pos.compare_spec a b)
  | H : context [Pos.compare_cont Eq ?a ?b] |- _ =>
      change (Pos.compare_cont Eq a b) with (Pos.compare a b) in H;
      destruct (Pos.compare_spec a b)
  end;
  cbn in *; try reflexivity; try discriminate; try lia.

Lemma ltb_false_leb (a b : float) :
  is_nan a = false -> is_nan b = false -> ltb a b = false -> leb b a = true.
Proof.
  unfold ltb, leb, SFltb, SFleb.
  destruct a, b; cbn; intros Ha Hb H; try discriminate; try reflexivity; order_cases.
Qed.

Lemma leb_trans (a b c : float) : leb a b = true -> leb b c = true -> leb a c = true.
Proof.
  unfold leb, SFleb.
  destruct a, b, c; cbn; intros H1 H2; try discriminate; try reflexivity; order_cases.
Qed.

Lemma leb_ltb_trans (a b c : float) : leb a b = true -> ltb b c = true -> ltb a c = true.
Proof.
  unfold leb, ltb, SFleb, SFltb.
  destruct a, b, c; cbn; intros H1 H2; try discriminate; try reflexivity; order_cases.
Qed.

Lemma ltb_leb (a b : float) : ltb a b = true -> leb a b = true.
Proof.
  unfold leb, ltb, SFleb, SFltb. destruct (SFcompare a b) as [[]|]; congruence.
Qed.

Lemma ltb_not_nan (a b : float) : ltb a b = true -> is_nan a = false /\ is_nan b = false.
Proof.
  unfold ltb, SFltb. destruct a, b; cbn; intros H; try discriminate; auto.
Qed.

(** The literals are within half a unit in the last place of the decimal
    fractions they stand for. *)
Lemma literals_nearest :
  (Qabs (to_Q lit_0_7 - (7 # 10)) <= 1 # 2 ^ 54)%Q /\
  (Qabs (to_Q lit_0_3 - (3 # 10)) <= 1 # 2 ^ 55)%Q /\
  (Qabs (to_Q lit_0_2 - (2 # 10)) <= 1 # 2 ^ 56)%Q /\
  (to_Q one == 1)%Q.
Proof. repeat split; vm_compute; congruence. Qed.

(** Rounding: what the shifts of [binary_round_aux] do to a mantissa. *)

Lemma digits2_log2 (p : positive) : Z.pos (digits2_pos p) = Z.log2 (Z.pos p) + 1.
Proof.
  induction p as [p IH|p IH|]; cbn [digits2_pos]; [| |reflexivity].
  - rewrite Pos2Z.inj_succ, IH.
    change (Z.pos p~1) with (2 * Z.pos p + 1). rewrite Z.log2_succ_double; lia.
  - rewrite Pos2Z.inj_succ, IH.
    change (Z.pos p~0) with (2 * Z.pos p). rewrite Z.log2_double; lia.
Qed.

Lemma Zdigits2_log2 (m : Z) : 0 < m -> Zdigits2 m = Z.log2 m + 1.
Proof. destruct m as [|p|p]; try lia. intros _. apply digits2_log2. Qed.

Lemma shr_1_m (mrs : shr_record) : 0 <= shr_m mrs -> shr_m (shr_1 mrs) = Z.div2 (shr_m mrs).
Proof. destruct mrs as [[|[p|p|]|p] r s]; cbn; try reflexivity; lia. Qed.

Lemma shr_iter_m (n : positive) :
  forall mrs, 0 <= shr_m mrs ->
    shr_m (SpecFloat.iter_pos shr_1 n mrs) = Z.shiftr (shr_m mrs) (Z.pos n).
Proof.
  assert (Hd : forall a, 0 <= a -> 0 <= Z.div2 a)
    by (intros a Ha; rewrite Z.div2_div; apply Z.div_pos; lia).
  assert (Hs : forall a k, 0 <= a -> 0 <= Z.shiftr a k)
    by (intros a k Ha; now apply Z.shiftr_nonneg).
  induction n as [n IH|n IH|]; intros mrs Hm; cbn [SpecFloat.iter_pos].
  - assert (H1 : 0 <= shr_m (shr_1 mrs)) by (rewrite shr_1_m; auto).
    assert (H2 : 0 <= shr_m (SpecFloat.iter_pos shr_1 n (shr_1 mrs)))
      by (rewrite IH; auto).
    rewrite (IH _ H2), (IH _ H1), shr_1_m by assumption.
    rewrite Z.div2_spec, !Z.shiftr_shiftr by lia. f_equal; lia.
  - assert (H2 : 0 <= shr_m (SpecFloat.iter_pos shr_1 n mrs)) by (rewrite IH; auto).
    rewrite (IH _ H2), (IH _ Hm).
    rewrite Z.shiftr_shiftr by lia. f_equal; lia.
  - rewrite shr_1_m by auto. now rewrite Z.div2_spec.
Qed.

Lemma shr_fexp_m (m e : Z) (l : location) :
  0 < m -> emin prec emax < Zdigits2 m + e ->
  let '(mrs, e') := shr_fexp prec emax m e l in
  0 < shr_m mrs /\ Zdigits2 m + e <= Zdigits2 (shr_m mrs) + e'.
Proof.
  intros Hm He. unfold shr_fexp, shr.
  assert (Hrec : shr_m (shr_record_of_loc m l) = m) by (now destruct l as [|[]]).
  destruct (fexp prec emax (Zdigits2 m + e) - e) as [|n|n] eqn:En;
    rewrite ?Hrec; try (split; [assumption|lia]).
  rewrite shr_iter_m, Hrec by (rewrite Hrec; lia).
  rewrite Zdigits2_log2 in * by assumption.
  unfold fexp, emin, prec, emax in *.
  assert (Hn : Z.pos n <= Z.log2 m) by lia.
  assert (Hpos : 0 < Z.shiftr m (Z.pos n)).
  { destruct (Z.shiftr_eq_0_iff m (Z.pos n)) as [H1 _].
    assert (0 <= Z.shiftr m (Z.pos n)) by (apply Z.shiftr_nonneg; lia).
    destruct (Z.eq_dec (Z.shiftr m (Z.pos n)) 0) as [E|]; [|lia].
    destruct (H1 E); lia. }
  split; [assumption|].
  rewrite Zdigits2_log2 by assumption.
  rewrite Z.log2_shiftr by assumption. lia.
Qed.

Lemma round_nearest_even_ge (m : Z) (l : location) :
  m <= round_nearest_even m l <= m + 1.
Proof. destruct l as [|[]]; cbn; try lia. destruct (Z.even m); lia. Qed.

(** Above the underflow threshold, rounding a positive mantissa never gives
    a zero. *)
Lemma binary_round_aux_nonzero (s : bool) (m e : Z) (l : location) :
  0 < m -> emin prec emax < Zdigits2 m + e ->
  is_zero (binary_round_aux prec emax s m e l) = false.
Proof.
  intros Hm He. unfold binary_round_aux.
  pose proof (shr_fexp_m m e l Hm He) as H1.
  destruct (shr_fexp prec emax m e l) as [mrs' e'].
  destruct H1 as [Hm' He'].
  pose proof (round_nearest_even_ge (shr_m mrs') (loc_of_shr_record mrs')) as Hr.
  set (m1 := round_nearest_even (shr_m mrs') (loc_of_shr_record mrs')) in *.
  assert (Hm1 : 0 < m1) by lia.
  assert (He1 : emin prec emax < Zdigits2 m1 + e').
  { rewrite (Zdigits2_log2 m) in He' by assumption.
    rewrite (Zdigits2_log2 m) in He by assumption.
    rewrite (Zdigits2_log2 (shr_m mrs')) in He' by assumption.
    rewrite (Zdigits2_log2 m1) by assumption.
    assert (Z.log2 (shr_m mrs') <= Z.log2 m1) by (apply Z.log2_le_mono; lia). lia. }
  pose proof (shr_fexp_m m1 e' loc_Exact Hm1 He1) as H2.
  destruct (shr_fexp prec emax m1 e' loc_Exact) as [mrs'' e''].
  destruct H2 as [Hm'' _].
  destruct (shr_m mrs'') as [|p|p]; try lia.
  now destruct (e'' <=? emax - prec).
Qed.

Lemma digits2_iter_xO (p k : positive) :
  Z.pos (digits2_pos (Pos.iter xO p k)) = Z.pos (digits2_pos p) + Z.pos k.
Proof.
  rewrite (Pos2Nat.inj_iter k). rewrite <- (positive_nat_Z k).
  induction (Pos.to_nat k) as [|n IH]; cbn [nat_rect digits2_pos]; [lia|].
  rewrite Pos2Z.inj_succ, IH. lia.
Qed.

Lemma binary_round_nonzero (s : bool) (m : positive) (e : Z) :
  emin prec emax < Z.pos (digits2_pos m) + e ->
  is_zero (binary_round prec emax s m e) = false.
Proof.
  intros He. unfold binary_round, shl_align.
  destruct (fexp prec emax (Z.pos (digits2_pos m) + e) - e) as [|d|d] eqn:Ed;
    apply binary_round_aux_nonzero; cbn [Zdigits2]; try lia.
  rewrite digits2_iter_xO. lia.
Qed.

(** [float(n)] is not zero unless [n] is. *)
Lemma of_Z_nonzero (z : Z) : z <> 0 -> is_zero (of_Z z) = false.
Proof.
  intros Hz. unfold of_Z, binary_normalize.
  destruct z as [|p|p]; [contradiction| |]; apply binary_round_nonzero;
    rewrite digits2_log2; pose proof (Z.log2_nonneg (Z.pos p));
    unfold emin, prec, emax; lia.
Qed.

(** Conversion and division of the ints a float holds exactly. *)













End B64Facts.


(** ** Python operators *)

Lemma int_truediv_self (z : Z) : z <> 0 -> int_truediv z z = Ok B64.one.
Proof.
  intros Hz. unfold int_truediv.
  destruct (Z.eqb_spec z 0) as [|_]; [contradiction|].
  rewrite xorb_nilpotent.
  assert (H : exists p, Z.abs z = Z.pos p) by (destruct z; [contradiction|eauto|eauto]).
  destruct H as [p ->].
  now rewrite B64Facts.div_core_self.
Qed.

Ltac unfold_result :=
  unfold mbind, mret, result_bind, result_ret in *; cbn in *.

(** A quotient, when there is one, is a float. *)
Lemma py_truediv_is_float (a b q : pyval) :
  py_truediv a b = Ok q -> exists f, q = PFloat f.
Proof.
  unfold py_truediv, to_double.
  destruct (as_number a) as [[x|x]|], (as_number b) as [[y|y]|];
    unfold_result; try discriminate.
  - destruct (int_truediv x y); intros [= <-]; eauto.
  - destruct (B64.is_infinite (B64.of_Z x)); try discriminate.
    destruct (B64.is_zero y); intros [= <-]; eauto.
  - destruct (B64.is_infinite (B64.of_Z y)); try discriminate.
    destruct (B64.is_zero (B64.of_Z y)); intros [= <-]; eauto.
  - destruct (B64.is_zero y); intros [= <-]; eauto.
Qed.

Lemma int_truediv_nonzero (x y : Z) :
  y <> 0 -> int_truediv x y <> Raise ZeroDivisionError.
Proof.
  intros Hy. unfold int_truediv.
  destruct (Z.eqb_spec y 0) as [|_]; [contradiction|].
  destruct (x =? 0); [discriminate|].
  destruct (SFdiv_core_binary _ _ _ _ _ _) as [[q e] l].
  destruct (B64.is_infinite _); discriminate.
Qed.

(** The guard of line 267 is enough: a truthy divisor is not zero. *)
Lemma py_truediv_truthy_divisor (a b : pyval) :
  truthy b = true -> py_truediv a b <> Raise ZeroDivisionError.
Proof.
  intros Hb. unfold py_truediv.
  assert (Hnb : forall y, as_number b = Some (NInt y) -> y <> 0).
  { destruct b as [|[]|z|f| | |]; cbn in *; intros y [= <-]; try discriminate.
    intros ->. discriminate. }
  assert (Hfb : forall f, as_number b = Some (NFloat f) -> B64.is_zero f = false).
  { destruct b as [|[]|z|f| | |]; cbn in *; intros f' [= <-].
    now apply negb_true_iff. }
  destruct (as_number a) as [[x|x]|], (as_number b) as [[y|y]|]; try discriminate.
  - pose proof (int_truediv_nonzero x y (Hnb y eq_refl)).
    unfold mbind, result_bind. destruct (int_truediv x y); congruence.
  - unfold mbind, result_bind, to_double; cbv beta iota zeta.
    destruct (B64.is_infinite (B64.of_Z x)); [discriminate|].
    rewrite (Hfb y eq_refl). discriminate.
  - unfold mbind, result_bind, to_double; cbv beta iota zeta.
    destruct (B64.is_infinite (B64.of_Z y)); [discriminate|].
    rewrite (B64Facts.of_Z_nonzero y (Hnb y eq_refl)). discriminate.
  - unfold mbind, result_bind, to_double; cbv beta iota zeta.
    rewrite (Hfb y eq_refl). discriminate.
Qed.


(** ** The currency converter *)

Ltac run_script :=
  unfold get_exchange_rate, converter, try_except, lift, emit,
    mbind, mret, script_bind, script_ret, result_bind, result_ret in *.

Lemma rate_of_body_rates (body rates : gmap string pyval) (o d : string) :
  body !! "rates" = Some (PDict rates) ->
  rate_of_body (PDict body) o d =
    if truthy (default PNone (rates !! o)) && truthy (default PNone (rates !! d))
    then py_truediv (default PNone (rates !! d)) (default PNone (rates !! o))
    else Ok (PInt 1).
Proof.
  intros Hr. unfold rate_of_body, py_contains, py_getitem, py_get, mbind, result_bind.
  rewrite Hr. rewrite bool_decide_eq_true_2 by eauto. reflexivity.
Qed.

(** A rate other than the fallback comes out of the division of two truthy
    rates found under the two codes. *)
Lemma rate_of_body_inv (data : pyval) (o d : string) (v : pyval) :
  rate_of_body data o d = Ok v ->
  v = PInt 1 \/
  exists body rates ro rd,
    data = PDict body /\ body !! "rates" = Some (PDict rates) /\
    rates !! o = Some ro /\ rates !! d = Some rd /\
    truthy ro = true /\ truthy rd = true /\ py_truediv rd ro = Ok v.
Proof.
  unfold rate_of_body, mbind, result_bind.
  destruct data as [| | | |s|l|body]; cbn [py_contains]; try discriminate.
  - destruct (negb _); [intros [= <-]; now left|discriminate].
  - destruct (negb _); [intros [= <-]; now left|discriminate].
  - destruct (body !! "rates") as [r|] eqn:Hr.
    2:{ rewrite bool_decide_eq_false_2 by (intros [? ?]; discriminate).
        intros [= <-]; now left. }
    rewrite bool_decide_eq_true_2 by eauto. cbn [negb py_getitem]. rewrite Hr.
    destruct r as [| | | | | |rates]; cbn [py_get]; try discriminate.
    destruct (rates !! o) as [ro|] eqn:Ho; cbn [default from_option id];
      [|cbn; intros [= <-]; now left].
    destruct (rates !! d) as [rd|] eqn:Hd; cbn [default from_option id];
      [|rewrite andb_false_r; intros [= <-]; now left].
    destruct (truthy ro) eqn:Tro; cbn [andb]; [|intros [= <-]; now left].
    destruct (truthy rd) eqn:Trd; [|intros [= <-]; now left].
    intros Hq. right. exists body, rates, ro, rd. auto 10.
Qed.

Lemma get_exchange_rate_ok (data : pyval) (o d : string) (v : pyval) :
  rate_of_body data o d = Ok v ->
  get_exchange_rate (Ok data) o d = ([], Done v).
Proof. intros H. run_script. now rewrite H. Qed.

Lemma get_exchange_rate_caught (data : pyval) (o d : string) (e : exn) :
  rate_of_body data o d = Raise e ->
  get_exchange_rate (Ok data) o d = ([rate_notice e], Done (PInt 1)).
Proof. intros H. run_script. now rewrite H. Qed.

Lemma get_exchange_rate_raised (e : exn) (o d : string) :
  get_exchange_rate (Raise e) o d = ([rate_notice e], Done (PInt 1)).
Proof. reflexivity. Qed.

Lemma float_mul_int_one (valor : float) :
  B64.valid valor = true -> float_mul valor (PInt 1) = Ok valor.
Proof.
  intros H. unfold float_mul, as_number, to_double, mbind, result_bind.
  change (B64.of_Z 1) with B64.one. cbv beta iota zeta.
  change (B64.is_infinite B64.one) with false. cbv iota.
  now rewrite B64Facts.mul_one_r.
Qed.

Lemma float_mul_float_one (valor : float) :
  B64.valid valor = true -> float_mul valor (PFloat B64.one) = Ok valor.
Proof.
  intros H. unfold float_mul, as_number, to_double, mbind, result_bind.
  now rewrite B64Facts.mul_one_r.
Qed.

Lemma converter_with_rate (response : result pyval) (o d : string)
    (valor x : float) (notices : list event) (taxa : pyval) :
  get_exchange_rate response o d = (notices, Done taxa) ->
  float_mul valor taxa = Ok x ->
  converter response o d valor = ((notices ++ [converted_line o d x])%list, Done x).
Proof.
  intros Hg Hm. unfold converter.
  unfold mbind at 1. unfold script_bind. rewrite Hg.
  unfold lift. rewrite Hm. reflexivity.
Qed.

Lemma nonzero_rate_truthy (v : pyval) : nonzero_rate v = true -> truthy v = true.
Proof. destruct v as [| | |[]| | |]; cbn; congruence. Qed.

Lemma py_truediv_self (v : pyval) :
  nonzero_rate v = true -> py_truediv v v = Ok (PFloat B64.one).
Proof.
  destruct v as [| |z|[s|s| |s m e]| | |]; cbn [nonzero_rate]; try discriminate;
    intros H; unfold py_truediv, as_number, mbind, result_bind.
  - rewrite int_truediv_self; [reflexivity|].
    intros ->. discriminate.
  - unfold to_double. cbv beta iota. cbn [B64.is_zero].
    now rewrite B64Facts.div_self.
Qed.

Lemma rate_of_body_raise_inv (data : pyval) (o d : string) (e : exn) :
  rate_of_body data o d = Raise e ->
  e = TypeError \/ e = AttributeError \/
  exists ro rd, truthy ro = true /\ truthy rd = true /\ py_truediv rd ro = Raise e.
Proof.
  unfold rate_of_body, mbind, result_bind.
  destruct data as [| | | |s|l|body]; cbn [py_contains];
    try (intros [= <-]; now left).
  - destruct (negb _); [discriminate|intros [= <-]; now left].
  - destruct (negb _); [discriminate|intros [= <-]; now left].
  - destruct (body !! "rates") as [r|] eqn:Hr.
    2:{ rewrite bool_decide_eq_false_2 by (intros [? ?]; discriminate).
        discriminate. }
    rewrite bool_decide_eq_true_2 by eauto. cbn [negb py_getitem]. rewrite Hr.
    destruct r as [| | | | | |rates]; cbn [py_get];
      try (intros [= <-]; right; now left).
    destruct (truthy (default PNone (rates !! o))) eqn:To; cbn [andb]; [|discriminate].
    destruct (truthy (default PNone (rates !! d))) eqn:Td; [|discriminate].
    intros Hq. right; right. eauto.
Qed.

(** [get_exchange_rate] always returns: every exception is caught. *)
Lemma get_exchange_rate_total (response : result pyval) (o d : string) :
  exists notices v, get_exchange_rate response o d = (notices, Done v).
Proof.
  destruct response as [data|e]; [|eauto using get_exchange_rate_raised].
  destruct (rate_of_body data o d) eqn:E;
    eauto using get_exchange_rate_ok, get_exchange_rate_caught.
Qed.









(** C6. A failed rate lookup (an exception of the request or of the parser,
    a body without a "rates" mapping, a currency code missing from the
    rates) makes [get_exchange_rate] return 1 without raising; the converter
    then ends normally and writes the amount unchanged. *)
Theorem failed_lookup_falls_back_to_one (response : result pyval) (o d : string)
    (valor : float) :
  lookup_fails response o d ->
  B64.valid valor = true ->
  exists notices,
    get_exchange_rate response o d = (notices, Done (PInt 1)) /\
    converter response o d valor
      = ((notices ++ [converted_line o d valor])%list, Done valor).
Proof.
  intros Hf Hv.
  assert (Hg : exists notices, get_exchange_rate response o d = (notices, Done (PInt 1))).
  { destruct Hf as [e o d|data o d Hn|body rates o d Hr Hc].
    - eauto using get_exchange_rate_raised.
    - destruct (rate_of_body data o d) as [v|e] eqn:E;
        [|eauto using get_exchange_rate_caught].
      destruct (rate_of_body_inv _ _ _ _ E) as [->|(body & rates & ? & ? & -> & Hr & _)].
      + eauto using get_exchange_rate_ok.
      + now destruct (Hn body rates eq_refl).
    - exists []. apply get_exchange_rate_ok.
      rewrite (rate_of_body_rates body rates) by assumption.
      destruct Hc as [-> | ->]; cbn [default from_option truthy andb];
        [reflexivity|now rewrite andb_false_r]. }
  destruct Hg as [notices Hg]. exists notices. split; [assumption|].
  apply (converter_with_rate _ _ _ _ _ _ _ Hg). now apply float_mul_int_one.
Qed.

Lemma failed_lookup_falls_back_to_one_witness :
  exists notices,
    get_exchange_rate (Raise (External "timeout")) "BRL" "EUR"
      = (notices, Done (PInt 1)) /\
    converter (Raise (External "timeout")) "BRL" "EUR" f_100
      = ((notices ++ [converted_line "BRL" "EUR" f_100])%list, Done f_100).
Proof.
  apply (failed_lookup_falls_back_to_one (Raise (External "timeout")) "BRL" "EUR" f_100).
  - apply fails_raised.
  - reflexivity.
Defined.

(** C9. Converting a currency to itself: when the response holds a nonzero
    rate for the code, the rate returned is exactly 1 and the converted
    value is the amount. *)
Theorem same_currency_is_identity (body rates : gmap string pyval) (m : string)
    (v : pyval) (valor : float) :
  body !! "rates" = Some (PDict rates) ->
  rates !! m = Some v ->
  nonzero_rate v = true ->
  B64.valid valor = true ->
  get_exchange_rate (Ok (PDict body)) m m = ([], Done (PFloat B64.one)) /\
  converter (Ok (PDict body)) m m valor = ([converted_line m m valor], Done valor).
Proof.
  intros Hr Hm Hv Hvalid.
  assert (Hg : get_exchange_rate (Ok (PDict body)) m m = ([], Done (PFloat B64.one))).
  { apply get_exchange_rate_ok.
    rewrite (rate_of_body_rates body rates) by assumption.
    rewrite Hm. cbn [default from_option id].
    rewrite (nonzero_rate_truthy v Hv). cbn [andb]. now apply py_truediv_self. }
  split; [assumption|].
  apply (converter_with_rate _ _ _ _ _ _ _ Hg). now apply float_mul_float_one.
Qed.

Lemma same_currency_is_identity_witness :
  get_exchange_rate (Ok (PDict example_body)) "EUR" "EUR"
    = ([], Done (PFloat B64.one)) /\
  converter (Ok (PDict example_body)) "EUR" "EUR" f_100
    = ([converted_line "EUR" "EUR" f_100], Done f_100).
Proof.
  apply (same_currency_is_identity example_body example_rates "EUR" (PFloat f_0_9) f_100);
    vm_compute; reflexivity.
Defined.

(** Outside C9: a rate that is not a finite number (JSON NaN) is truthy and
    its quotient by itself is NaN. *)
Remark same_currency_nan_rate (body rates : gmap string pyval) (m : string) :
  body !! "rates" = Some (PDict rates) ->
  rates !! m = Some (PFloat S754_nan) ->
  get_exchange_rate (Ok (PDict body)) m m = ([], Done (PFloat S754_nan)).
Proof.
  intros Hr Hm. apply get_exchange_rate_ok.
  rewrite (rate_of_body_rates body rates) by assumption.
  now rewrite Hm.
Qed.

(** C10. [get_exchange_rate] never divides by zero: on a body with a rates
    mapping the division is evaluated only under the guard that both rates
    are truthy, no run of lines 260-270 raises ZeroDivisionError nor shows
    one, and a rate that is absent or zero gives the fallback 1. *)
Theorem exchange_rate_never_divides_by_zero :
  (forall (body rates : gmap string pyval) (o d : string),
     body !! "rates" = Some (PDict rates) ->
     rate_of_body (PDict body) o d =
       if truthy (default PNone (rates !! o)) && truthy (default PNone (rates !! d))
       then py_truediv (default PNone (rates !! d)) (default PNone (rates !! o))
       else Ok (PInt 1)) /\
  (forall (a b : pyval), truthy b = true -> py_truediv a b <> Raise ZeroDivisionError) /\
  (forall (data : pyval) (o d : string),
     rate_of_body data o d <> Raise ZeroDivisionError /\
     ~ In (rate_notice ZeroDivisionError) (fst (get_exchange_rate (Ok data) o d))) /\
  (forall (body rates : gmap string pyval) (o d : string),
     body !! "rates" = Some (PDict rates) ->
     zero_or_absent (rates !! o) || zero_or_absent (rates !! d) = true ->
     get_exchange_rate (Ok (PDict body)) o d = ([], Done (PInt 1))).
Proof.
  assert (Hno : forall data o d, rate_of_body data o d <> Raise ZeroDivisionError).
  { intros data o d E.
    destruct (rate_of_body_raise_inv _ _ _ _ E) as [?|[?|(ro & rd & Tro & _ & Hq)]];
      try discriminate.
    now apply (py_truediv_truthy_divisor rd ro Tro). }
  split; [exact rate_of_body_rates|].
  split; [exact py_truediv_truthy_divisor|].
  split.
  - intros data o d. split; [apply Hno|].
    destruct (rate_of_body data o d) as [v|e] eqn:E.
    + rewrite (get_exchange_rate_ok _ _ _ _ E). cbn. tauto.
    + rewrite (get_exchange_rate_caught _ _ _ _ E). cbn.
      intros [[= ->]|[]]. now apply (Hno data o d).
  - intros body rates o d Hr Hz. apply get_exchange_rate_ok.
    rewrite (rate_of_body_rates body rates) by assumption.
    assert (Hf : forall ov, zero_or_absent ov = true -> truthy (default PNone ov) = false).
    { intros [[| |[]|[]| | |]|]; cbn; congruence. }
    apply orb_true_iff in Hz as [Hz|Hz]; rewrite (Hf _ Hz);
      [reflexivity|now rewrite andb_false_r].
Qed.

Lemma exchange_rate_never_divides_by_zero_witness :
  get_exchange_rate
    (Ok (PDict (<["rates" := PDict (<["USD" := PInt 1]> (<["BRL" := PFloat (S754_zero false)]> ∅))]> ∅)))
    "BRL" "USD" = ([], Done (PInt 1)).
Proof.
  apply (proj2 (proj2 (proj2 exchange_rate_never_divides_by_zero))
           (<["rates" := PDict (<["USD" := PInt 1]> (<["BRL" := PFloat (S754_zero false)]> ∅))]> ∅)
           (<["USD" := PInt 1]> (<["BRL" := PFloat (S754_zero false)]> ∅))
           "BRL" "USD");
    vm_compute; reflexivity.
Defined.

(** ** Loading *)

Lemma mem_In (x : string) (l : list string) : mem x l = true <-> In x l.
Proof.
  unfold mem. rewrite List.existsb_exists. split.
  - intros (y & Hy & E). apply String.eqb_eq in E. now subst.
  - intros H. exists x. split; [assumption|apply String.eqb_refl].
Qed.

Lemma target_columns_NoDup : List.NoDup target_columns.
Proof.
  unfold target_columns.
  repeat (apply List.NoDup_cons; [cbn; intuition discriminate|]).
  apply List.NoDup_nil.
Qed.

(** C4. On a loaded table, the columns missing after trimming the labels are
    exactly the required ones that are not among the trimmed labels; when
    there is one, the load step shows an error naming them (each once) and
    halts the run; when there is none, it returns the table and the run goes
    on with the analysis. *)
Theorem load_reports_missing_columns (countries_get : string -> bool) (df : DataFrame) :
  let cols := map strip (columns df) in
  let missing := List.filter (fun col => negb (mem col cols)) target_columns in
  let loaded := {| columns := cols; rows := rows df |} in
  (forall c, In c missing <-> In c target_columns /\ ~ In c cols) /\
  List.NoDup missing /\
  load_imoveis (Ok df) =
    match missing with
    | [] => ([], Done loaded)
    | _ :: _ => ([missing_columns_error missing], Stopped)
    end /\
  run countries_get (Ok df) =
    match missing with
    | [] => analyse countries_get loaded
    | _ :: _ => ([missing_columns_error missing], Stopped)
    end.
Proof.
  intros cols missing loaded.
  assert (Hload : load_imoveis (Ok df) =
    match missing with
    | [] => ([], Done loaded)
    | _ :: _ => ([missing_columns_error missing], Stopped)
    end).
  { unfold missing, loaded, load_imoveis, try_except, lift, emit, st_stop,
      mbind, mret, script_bind, script_ret.
    cbn [columns rows target_columns forallb List.filter]. fold cols.
    destruct (mem "Country" cols), (mem "Year" cols),
      (mem "GDP Growth (%)" cols), (mem "Population Growth (%)" cols);
      reflexivity. }
  split; [|split; [|split; [exact Hload|]]].
  - intros c. unfold missing. rewrite List.filter_In, negb_true_iff.
    rewrite <- (mem_In c cols). destruct (mem c cols); intuition congruence.
  - apply List.NoDup_filter, target_columns_NoDup.
  - unfold run. rewrite Hload. unfold mbind, script_bind.
    destruct missing; [|reflexivity].
    now destruct (analyse countries_get loaded).
Qed.

(** A failed read is reported and halts the run as well. *)
Lemma load_read_error (e : exn) :
  load_imoveis (Raise e) =
    ([StError [Lit "Erro ao carregar os dados: "; ExcText e;
               Lit ". Certifique-se de que o arquivo `imoveis.csv` está no diretório correto e possui os dados esperados."]],
     Stopped).
Proof. reflexivity. Qed.

(** ** Snapshot, null check and score *)

Lemma fold_left_max_ge (ys : list Z) :
  forall y, y <= fold_left Z.max ys y /\ Forall (fun z => z <= fold_left Z.max ys y) ys.
Proof.
  induction ys as [|z ys IH]; intros y; cbn [fold_left].
  - split; [lia|constructor].
  - destruct (IH (Z.max y z)) as [H1 H2]. split; [lia|].
    constructor; [lia|assumption].
Qed.

Lemma fold_left_max_In (ys : list Z) :
  forall y, fold_left Z.max ys y = y \/ In (fold_left Z.max ys y) ys.
Proof.
  induction ys as [|z ys IH]; intros y; cbn [fold_left]; [now left|].
  destruct (IH (Z.max y z)) as [H|H].
  - rewrite H. destruct (Z.max_spec y z) as [[_ ->]|[_ ->]]; [right; now left|now left].
  - right; now right.
Qed.

Lemma year_max_spec (years : list Z) (m : Z) :
  year_max years = Some m <-> In m years /\ Forall (fun y => y <= m) years.
Proof.
  destruct years as [|y ys]; cbn [year_max].
  - split; [discriminate|intros [[] _]].
  - destruct (fold_left_max_ge ys y) as [H1 H2].
    split.
    + intros [= <-]. split.
      * destruct (fold_left_max_In ys y) as [->|H]; [now left|now right].
      * now constructor.
    + intros [Hin Hall]. f_equal.
      assert (fold_left Z.max ys y <= m).
      { destruct (fold_left_max_In ys y) as [->|H].
        - now inversion Hall.
        - rewrite List.Forall_forall in Hall. apply Hall. now right. }
      assert (m <= fold_left Z.max ys y).
      { destruct Hin as [<-|Hin]; [assumption|].
        rewrite List.Forall_forall in H2. now apply H2. }
      lia.
Qed.

(** The snapshot is made of the rows of the greatest year. *)
Lemma snapshot_spec (imoveis : DataFrame) (ir : nat * Row) :
  In ir (snapshot imoveis) <->
  In ir (rows imoveis) /\
  Forall (fun jr => Year (snd jr) <= Year (snd ir)) (rows imoveis).
Proof.
  unfold snapshot.
  destruct (year_max _) as [m|] eqn:E.
  - apply year_max_spec in E as [Hin Hall].
    rewrite List.Forall_map in Hall. apply List.in_map_iff in Hin as (kr & Hk & Hkin).
    rewrite List.filter_In, Z.eqb_eq. rewrite List.Forall_forall in Hall.
    split.
    + intros [H ->]. split; [assumption|]. now apply List.Forall_forall.
    + intros [H Hmax]. split; [assumption|].
      rewrite List.Forall_forall in Hmax.
      specialize (Hmax kr Hkin). specialize (Hall ir H). cbv beta in *. lia.
  - destruct (rows imoveis) as [|r rs]; [|discriminate].
    cbn. tauto.
Qed.

Lemma with_score_spec (frame : list (nat * Row)) :
  map (fun ir => (fst ir, base (snd ir))) (with_score frame) = frame /\
  Forall (fun ir => score (snd ir) = Score_spec (base (snd ir))) (with_score frame).
Proof.
  unfold with_score, Score, column, series_scale.
  induction frame as [|[i r] frame [IH1 IH2]]; cbn; [split; constructor|].
  split.
  - f_equal. exact IH1.
  - constructor; [|exact IH2].
    cbn. unfold Score_spec, pesos_gdp, pesos_pop.
    now rewrite (B64Facts.mul_comm (GDP r)), (B64Facts.mul_comm (Pop r)).
Qed.

(** C1. Every snapshot row (a row of the greatest year) gets as its Score
    the binary64 value of 0.7 x GDP + 0.3 x Population of that same row: the
    two are the same datum, so they differ by nothing. *)
Theorem score_is_weighted_sum (imoveis : DataFrame) :
  let dados_recentes := with_score (snapshot imoveis) in
  map (fun ir => (fst ir, base (snd ir))) dados_recentes = snapshot imoveis /\
  Forall (fun ir => score (snd ir) = Score_spec (base (snd ir))) dados_recentes /\
  (forall ir, In ir (snapshot imoveis) <->
     In ir (rows imoveis) /\
     Forall (fun jr => Year (snd jr) <= Year (snd ir)) (rows imoveis)).
Proof.
  intros dados_recentes.
  destruct (with_score_spec (snapshot imoveis)) as [H1 H2].
  split; [exact H1|]. split; [exact H2|]. apply snapshot_spec.
Qed.

Lemma has_null_true (frame : list (nat * Row)) :
  has_null frame = true <-> Exists null_row frame.
Proof.
  unfold has_null, null_row. rewrite List.existsb_exists, List.Exists_exists.
  split; intros (ir & Hin & H); exists ir; (split; [assumption|]).
  - now apply orb_true_iff in H.
  - now apply orb_true_iff.
Qed.

(** C3. A null in either analysis column of the snapshot halts the run with
    the warning as its only output, the score being never computed; with no
    null in the snapshot the run goes on to scoring and ranking. *)
Theorem null_check_gates_scoring (countries_get : string -> bool) (imoveis : DataFrame) :
  (Exists null_row (snapshot imoveis) ->
   analyse countries_get imoveis = ([null_warning], Stopped)) /\
  (~ Exists null_row (snapshot imoveis) ->
   analyse countries_get imoveis
     = report countries_get imoveis (with_score (snapshot imoveis))).
Proof.
  unfold analyse, check_nulls. split; intros H.
  - apply has_null_true in H. now rewrite H.
  - destruct (has_null (snapshot imoveis)) eqn:E.
    + now apply has_null_true in E.
    + unfold mbind, mret, script_bind, script_ret.
      now destruct (report _ _ _).
Qed.

Lemma null_check_gates_scoring_witness :
  analyse two_countries df_null = ([null_warning], Stopped) /\
  analyse two_countries df_two
    = report two_countries df_two (with_score (snapshot df_two)).
Proof.
  split.
  - apply (proj1 (null_check_gates_scoring two_countries df_null)).
    apply Exists_cons_hd. right. reflexivity.
  - apply (proj2 (null_check_gates_scoring two_countries df_two)).
    intros H. apply has_null_true in H. vm_compute in H. discriminate.
Defined.

(** ** Ranking *)

Lemma fill_nan_not_nan (x : float) : B64.is_nan (fill_nan x) = false.
Proof. unfold fill_nan. now destruct x. Qed.

Lemma fill_nan_id (x : float) : B64.is_nan x = false -> fill_nan x = x.
Proof. unfold fill_nan. now intros ->. Qed.

Lemma ltb_irrefl (x : float) : B64.ltb x x = false.
Proof.
  unfold B64.ltb, SFltb. destruct x as [s|s| |s m e]; cbn; try reflexivity;
    try (now destruct s).
  destruct s; rewrite Z.compare_refl;
    change (Pos.compare_cont Eq m m) with (Pos.compare m m);
    now rewrite Pos.compare_refl.
Qed.

Lemma nothing_below_neg_inf (x : float) : B64.ltb x (S754_infinity true) = false.
Proof. unfold B64.ltb, SFltb. now destruct x as [[]|[]| |[] m e]. Qed.

Lemma argmax_from_split (s : Series) :
  forall (i0 : nat) (x0 : float),
    B64.is_nan x0 = false ->
    (argmax_from (i0, x0) s = i0 /\
     Forall (fun iy => B64.is_nan (snd iy) = true \/ B64.leb (snd iy) x0 = true) s) \/
    (exists s1 x s2,
       s = (s1 ++ (argmax_from (i0, x0) s, x) :: s2)%list /\
       B64.ltb x0 x = true /\
       Forall (fun iy => B64.is_nan (snd iy) = true \/ B64.ltb (snd iy) x = true) s1 /\
       Forall (fun iy => B64.is_nan (snd iy) = true \/ B64.leb (snd iy) x = true) s2).
Proof.
  induction s as [|[i y] s IH]; intros i0 x0 Hx0; cbn [argmax_from fst snd].
  - left. split; [reflexivity|constructor].
  - destruct (B64.ltb x0 y) eqn:Hlt.
    + destruct (B64Facts.ltb_not_nan _ _ Hlt) as [_ Hy].
      right. destruct (IH i y Hy) as [[-> Hall]|(s1 & x & s2 & Hs & Hyx & H1 & H2)].
      * exists [], y, s. repeat split; [assumption|constructor|assumption].
      * exists ((i, y) :: s1), x, s2. split; [cbn; now f_equal|].
        split; [eauto using B64Facts.leb_ltb_trans, B64Facts.ltb_leb|].
        split; [|assumption]. constructor; [now right|assumption].
    + assert (Hy : B64.is_nan y = true \/ B64.leb y x0 = true).
      { destruct (B64.is_nan y) eqn:Hn; [now left|right].
        now apply B64Facts.ltb_false_leb. }
      destruct (IH i0 x0 Hx0) as [[-> Hall]|(s1 & x & s2 & Hs & Hx & H1 & H2)].
      * left. split; [reflexivity|]. constructor; assumption.
      * right. exists ((i, y) :: s1), x, s2. split; [cbn; now f_equal|].
        split; [assumption|]. split; [|assumption].
        constructor; [|assumption]. cbn [snd].
        destruct Hy as [Hy|Hy]; [now left|right].
        eauto using B64Facts.leb_ltb_trans.
Qed.

(** [idxmax] returns the label of the first greatest cell, a NaN cell being
    as low as -inf. *)
Lemma idxmax_split (s : Series) (l : nat) :
  idxmax s = Ok (Some l) ->
  exists s1 x s2,
    s = (s1 ++ (l, x) :: s2)%list /\
    Forall (fun iy => below (snd iy) x) s1 /\
    Forall (fun iy => not_above (snd iy) x) s2.
Proof.
  destruct s as [|[i y] s]; unfold idxmax; cbn [map fst snd]; [discriminate|].
  destruct (forallb _ _); [discriminate|]. intros [= <-].
  set (filled := map (fun iy : nat * float => (fst iy, fill_nan (snd iy))) s).
  destruct (argmax_from_split filled i (fill_nan y) (fill_nan_not_nan y))
    as [[-> Hall]|(s1 & x & s2 & Hs & Hx & H1 & H2)].
  - exists [], y, s. split; [reflexivity|]. split; [constructor|].
    unfold filled in Hall. rewrite List.Forall_map in Hall.
    revert Hall. apply List.Forall_impl. cbn [snd]. intros iy [H|H]; [|exact H].
    now rewrite fill_nan_not_nan in H.
  - unfold filled in Hs at 1.
    apply map_eq_app in Hs as (s1' & rest & Es & <- & Hrest).
    destruct rest as [|[l' x0] s2']; [discriminate|].
    cbn [map fst snd] in Hrest. injection Hrest as -> <- <-.
    exists ((i, y) :: s1'), x0, s2'. split; [cbn; now f_equal|].
    rewrite List.Forall_map in H1, H2. cbn [snd] in H1, H2. split.
    + constructor; [exact Hx|]. revert H1. apply List.Forall_impl.
      intros iy [H|H]; [|exact H]. now rewrite fill_nan_not_nan in H.
    + revert H2. apply List.Forall_impl.
      intros iy [H|H]; [|exact H]. now rewrite fill_nan_not_nan in H.
Qed.

Lemma idxmax_defined (s : Series) :
  Exists (fun iy => B64.is_nan (snd iy) = false) s -> exists l, idxmax s = Ok (Some l).
Proof.
  intros Hex.
  assert (Hf : forallb (fun iy : nat * float => B64.is_nan (snd iy)) s = false).
  { apply not_true_is_false. intros Hall. rewrite forallb_forall in Hall.
    apply List.Exists_exists in Hex as (iy & Hin & Hn).
    rewrite (Hall iy Hin) in Hn. discriminate. }
  destruct s as [|iy s]; [inversion Hex|].
  unfold idxmax. cbn [map]. rewrite Hf. eauto.
Qed.



Lemma loc_unique (before after : list (nat * Scored)) (label : nat) (w : Scored) :
  ~ In label (map fst before) ->
  loc (before ++ (label, w) :: after) (Some label) = Ok w.
Proof.
  unfold loc. induction before as [|[j r] before IH]; cbn; intros Hn.
  - now rewrite Nat.eqb_refl.
  - destruct (Nat.eqb_spec j label) as [->|_]; [tauto|].
    apply IH. tauto.
Qed.

Lemma first_of_country_find (dados : list (nat * Scored)) (name : string)
    (col : Row -> float) :
  first_of_country dados name col =
    match List.find (fun ir => String.eqb (Country (base (snd ir))) name) dados with
    | Some ir => Ok (col (base (snd ir)))
    | None => Raise IndexError
    end.
Proof.
  unfold first_of_country.
  induction dados as [|ir dados IH]; cbn; [reflexivity|].
  destruct (String.eqb _ name); [reflexivity|exact IH].
Qed.

Lemma find_first (before after : list (nat * Scored)) (ir : nat * Scored)
    (p : nat * Scored -> bool) :
  p ir = true ->
  exists first, List.find p (before ++ ir :: after) = Some first /\
    (Forall (fun jr => p jr = false) before -> first = ir).
Proof.
  intros Hp. induction before as [|jr before IH]; cbn.
  - rewrite Hp. eauto.
  - destruct (p jr) eqn:Hj.
    + exists jr. split; [reflexivity|]. intros H. inversion H; congruence.
    + destruct IH as (first & Hf & Hfirst). exists first. split; [assumption|].
      intros H. inversion H; auto.
Qed.

(** Scoring and taking the snapshot keep the index labels, so the labels of
    the scored snapshot are distinct when those of the dataset are. *)
Lemma scored_snapshot_labels (imoveis : DataFrame) :
  List.NoDup (map fst (rows imoveis)) ->
  List.NoDup (map fst (with_score (snapshot imoveis))).
Proof.
  intros Hnd.
  destruct (with_score_spec (snapshot imoveis)) as [Hmap _].
  assert (E : map fst (with_score (snapshot imoveis)) = map fst (snapshot imoveis)).
  { rewrite <- Hmap at 2. rewrite map_map. reflexivity. }
  rewrite E. unfold snapshot. destruct (year_max _) as [m|]; [|constructor].
  induction (rows imoveis) as [|ir frame IH]; cbn [List.filter map]; [constructor|].
  cbn [map] in Hnd. apply List.NoDup_cons_iff in Hnd as [Hn Hnd].
  destruct (Year (snd ir) =? m); [|now apply IH].
  cbn [map]. apply List.NoDup_cons; [|now apply IH].
  intros Hin. apply Hn. apply List.in_map_iff in Hin as (jr & <- & Hj).
  apply List.filter_In in Hj as [Hj _]. now apply in_map.
Qed.

(** When some Score is above -inf, the first row attaining the maximum has
    a Score that is a number. *)
Lemma first_max_is_a_number (before after : list (nat * Scored)) (label : nat) (w : Scored) :
  first_max before w after ->
  Exists (fun ir => above_neg_inf (score (snd ir)) = true)
         (before ++ (label, w) :: after)%list ->
  B64.is_nan (score w) = false.
Proof.
  intros [Hb Ha] Hex. destruct (B64.is_nan (score w)) eqn:Hw; [exfalso|reflexivity].
  assert (Hfw : fill_nan (score w) = S754_infinity true) by (unfold fill_nan; now rewrite Hw).
  apply List.Exists_exists in Hex as (ir & Hin & Hir).
  unfold above_neg_inf in Hir.
  assert (Hn : B64.is_nan (score (snd ir)) = false)
    by now destruct (B64Facts.ltb_not_nan _ _ Hir).
  rewrite List.Forall_forall in Hb, Ha.
  apply in_app_or in Hin as [Hin|[<-|Hin]].
  - specialize (Hb ir Hin). unfold below in Hb. rewrite Hfw in Hb.
    now rewrite nothing_below_neg_inf in Hb.
  - cbn [snd] in Hn. congruence.
  - specialize (Ha ir Hin). unfold not_above in Ha.
    rewrite Hfw, (fill_nan_id _ Hn) in Ha.
    pose proof (B64Facts.leb_ltb_trans _ _ _ Ha Hir) as H.
    now rewrite ltb_irrefl in H.
Qed.

(** C2, as the code has it. On a scored snapshot with distinct index labels
    and a Score that is not NaN, the ranker selects the first row attaining
    the maximum Score, a NaN Score counting as -inf: the selected row has a
    Score that is a number as soon as some Score is above -inf. It reports
    the Country label of that row, with the GDP and Population values of the
    first snapshot row carrying that label: the selected row itself when no
    earlier row has the same label. With Scores [5.0, 7.0] the second row is
    selected. *)
Theorem ranker_selects_first_max :
  (forall dados : list (nat * Scored),
     List.NoDup (map fst dados) ->
     Exists (fun ir => B64.is_nan (score (snd ir)) = false) dados ->
     exists before label w after first,
       dados = (before ++ (label, w) :: after)%list /\
       first_max before w after /\
       (Exists (fun ir => above_neg_inf (score (snd ir)) = true) dados ->
        B64.is_nan (score w) = false) /\
       List.find (fun ir => String.eqb (Country (base (snd ir))) (Country (base w))) dados
         = Some first /\
       ranker dados
         = Ok (Country (base w), GDP (base (snd first)), Pop (base (snd first))) /\
       (Forall (fun ir => Country (base (snd ir)) <> Country (base w)) before ->
        first = (label, w))) /\
  scores (with_score (snapshot df_two)) = [(1%nat, f_5); (2%nat, f_7)] /\
  ranker (with_score (snapshot df_two)) = Ok ("Peru", f_7, f_7).
Proof.
  split; [|split; reflexivity].
  intros dados Hnd Hex.
  assert (Hex' : Exists (fun iy => B64.is_nan (snd iy) = false) (scores dados)).
  { unfold scores. apply List.Exists_exists in Hex as (ir & Hin & H).
    apply List.Exists_exists. exists (fst ir, score (snd ir)).
    split; [|assumption]. apply List.in_map_iff. eauto. }
  destruct (idxmax_defined _ Hex') as [label Hl].
  destruct (idxmax_split _ _ Hl) as (s1 & x & s2 & Hs & H1 & H2).
  unfold scores in Hs. apply map_eq_app in Hs as (before & rest & -> & <- & Hrest).
  destruct rest as [|[label' w] after]; [discriminate|].
  cbn [map fst snd] in Hrest. injection Hrest as -> <- <-.
  rewrite List.Forall_map in H1, H2. cbn [snd] in H1, H2.
  assert (Hmax : first_max before w after) by (split; assumption).
  assert (Hloc : loc (before ++ (label, w) :: after) (Some label) = Ok w).
  { apply loc_unique. rewrite map_app in Hnd. cbn [map fst] in Hnd.
    apply List.NoDup_remove_2 in Hnd. rewrite in_app_iff in Hnd. tauto. }
  destruct (find_first before after (label, w)
              (fun ir => String.eqb (Country (base (snd ir))) (Country (base w)))
              (String.eqb_refl _)) as (first & Hfind & Hfirst).
  exists before, label, w, after, first.
  split; [reflexivity|]. split; [assumption|].
  split; [now apply first_max_is_a_number|].
  split; [assumption|]. split.
  - unfold ranker, mbind, result_bind. fold (scores (before ++ (label, w) :: after)).
    rewrite Hl, Hloc, !first_of_country_find, Hfind. reflexivity.
  - intros Hb. apply Hfirst. revert Hb. apply List.Forall_impl.
    intros ir Hne. now apply String.eqb_neq.
Qed.

Lemma ranker_selects_first_max_witness :
  exists before label w after first,
    with_score (snapshot df_two) = (before ++ (label, w) :: after)%list /\
    first_max before w after /\
    (Exists (fun ir => above_neg_inf (score (snd ir)) = true) (with_score (snapshot df_two)) ->
     B64.is_nan (score w) = false) /\
    List.find (fun ir => String.eqb (Country (base (snd ir))) (Country (base w)))
      (with_score (snapshot df_two)) = Some first /\
    ranker (with_score (snapshot df_two))
      = Ok (Country (base w), GDP (base (snd first)), Pop (base (snd first))) /\
    (Forall (fun ir => Country (base (snd ir)) <> Country (base w)) before ->
     first = (label, w)).
Proof.
  apply (proj1 ranker_selects_first_max (with_score (snapshot df_two))).
  - vm_compute. repeat (apply List.NoDup_cons; [cbn; intuition discriminate|]).
    apply List.NoDup_nil.
  - apply Exists_cons_hd. reflexivity.
Defined.

(** Outside C2: infinite cells are not null, and a snapshot whose Scores are
    all NaN has no ranking: [idxmax] answers NaN, which is no label. *)
Remark ranker_all_nan :
  has_null (snapshot df_infinite) = false /\
  scores (with_score (snapshot df_infinite)) = [(0%nat, S754_nan)] /\
  ranker (with_score (snapshot df_infinite)) = Raise KeyError.
Proof. repeat split. Qed.

(** When no Score is above -inf, a row with a NaN Score is selected if it
    comes first. *)
Remark ranker_selects_nan_row :
  has_null (snapshot df_nan_first) = false /\
  scores (with_score (snapshot df_nan_first))
    = [(0%nat, S754_nan); (1%nat, S754_infinity true)] /\
  ranker (with_score (snapshot df_nan_first))
    = Ok ("Chile", S754_infinity false, S754_infinity true).
Proof. repeat split. Qed.

(** C2 as stated fails: when two snapshot rows carry the same label and the
    later one wins, the values reported are those of the earlier one. *)
Lemma ranker_reports_another_row :
  ranker (with_score (snapshot df_same_label)) = Ok ("Brasil", f_5, f_5) /\
  ~ reports_winning_row (with_score (snapshot df_same_label)).
Proof.
  split; [reflexivity|].
  intros (before & label & w & after & Hd & (Hb & Ha) & Hr).
  change (with_score (snapshot df_same_label)) with
    [(0%nat, {| base := mk_row "Brasil" 2024 f_5 f_5; score := f_5 |});
     (1%nat, {| base := mk_row "Brasil" 2024 f_7 f_7; score := f_7 |})] in Hd, Hr.
  change (ranker _) with (@Ok (string * float * float) ("Brasil", f_5, f_5)) in Hr.
  destruct before as [|b0 [|b1 [|b2 before]]]; cbn in Hd.
  - injection Hd as <- <- <-. inversion Ha as [|? ? H _]. discriminate.
  - injection Hd as <- <- <- <-. discriminate.
  - destruct after; discriminate.
  - destruct before; discriminate.
Qed.

(** ** Country names *)

Lemma count_occ_filter (f : string -> bool) (l : list string) (x : string) :
  count_occ string_dec (List.filter f l) x
  = if f x then count_occ string_dec l x else 0%nat.
Proof.
  induction l as [|y l IH]; cbn [List.filter count_occ]; [now destruct (f x)|].
  destruct (f y) eqn:Hy; cbn [count_occ]; destruct (string_dec y x) as [->|Hn];
    rewrite IH; try rewrite Hy; reflexivity.
Qed.

(** C8, as the code has it. The validation never halts the run: it returns
    the list of unrecognized names and warns when the list is not empty. A
    recognized trimmed label has no entry in the list; an unrecognized one
    has one entry for each snapshot row carrying it, hence exactly one when
    the trimmed labels of the snapshot are distinct. *)
Theorem invalid_countries_one_entry_per_row (countries_get : string -> bool)
    (dados : list (nat * Scored)) :
  (forall name,
     count_occ string_dec (invalid_countries countries_get dados) name
     = if countries_get name then 0%nat
       else count_occ string_dec (trimmed_labels dados) name) /\
  validate_countries countries_get dados
    = (match invalid_countries countries_get dados with
       | [] => []
       | _ :: _ => [invalid_warning (invalid_countries countries_get dados)]
       end,
       Done (invalid_countries countries_get dados)) /\
  (List.NoDup (trimmed_labels dados) ->
   one_entry_per_invalid_name countries_get dados).
Proof.
  assert (Hc : forall name,
     count_occ string_dec (invalid_countries countries_get dados) name
     = if countries_get name then 0%nat
       else count_occ string_dec (trimmed_labels dados) name).
  { intros name. unfold invalid_countries. fold (trimmed_labels dados).
    rewrite count_occ_filter. now destruct (countries_get name). }
  split; [exact Hc|]. split.
  - unfold validate_countries. now destruct (invalid_countries countries_get dados).
  - intros Hnd name Hin Hname. rewrite Hc, Hname.
    apply (NoDup_count_occ' string_dec); assumption.
Qed.

Lemma invalid_countries_one_entry_per_row_witness :
  one_entry_per_invalid_name two_countries (with_score (snapshot df_two)).
Proof.
  apply (proj2 (proj2 (invalid_countries_one_entry_per_row two_countries
                         (with_score (snapshot df_two))))).
  vm_compute. repeat (apply List.NoDup_cons; [cbn; intuition discriminate|]).
  apply List.NoDup_nil.
Defined.

(** C8 as stated fails: a name that is not recognized and labels two
    snapshot rows has two entries in the warning list. *)
Lemma invalid_name_listed_twice :
  invalid_countries two_countries (with_score (snapshot df_same_label))
    = ["Brasil"; "Brasil"] /\
  ~ one_entry_per_invalid_name two_countries (with_score (snapshot df_same_label)).
Proof.
  split; [reflexivity|].
  intros H. specialize (H "Brasil").
  assert (Hin : In "Brasil" (trimmed_labels (with_score (snapshot df_same_label))))
    by (left; reflexivity).
  specialize (H Hin eq_refl). vm_compute in H. discriminate.
Qed.

(** * Further properties of the script *)

(** ** Trimming of labels *)

Lemma append_cons (a : ascii) (x y : string) : String a x ++ y = String a (x ++ y).
Proof. reflexivity. Qed.

Lemma append_nil_l (y : string) : "" ++ y = y.
Proof. reflexivity. Qed.

Lemma append_assoc' (a b c : string) : (a ++ b) ++ c = a ++ (b ++ c).
Proof.
  induction a as [|x a IH]; rewrite ?append_nil_l, ?append_cons; [reflexivity|].
  now rewrite IH.
Qed.

Lemma append_nil_r' (a : string) : a ++ "" = a.
Proof.
  induction a as [|x a IH]; rewrite ?append_nil_l, ?append_cons; [reflexivity|].
  now rewrite IH.
Qed.

Lemma rev_app_append (x y : string) : String.rev_app x y = String.rev x ++ y.
Proof.
  unfold String.rev. revert y.
  induction x as [|a x IH]; intros y; cbn [String.rev_app]; [reflexivity|].
  rewrite IH, (IH (String a "")), append_assoc'. reflexivity.
Qed.

Lemma rev_append (x y : string) : String.rev (x ++ y) = String.rev y ++ String.rev x.
Proof.
  induction x as [|a x IH]; rewrite ?append_nil_l, ?append_cons.
  - change (String.rev "") with "". now rewrite append_nil_r'.
  - unfold String.rev at 1 3. cbn [String.rev_app].
    rewrite !rev_app_append, IH, append_assoc'. reflexivity.
Qed.

Lemma rev_involutive (x : string) : String.rev (String.rev x) = x.
Proof.
  induction x as [|a x IH]; [reflexivity|].
  unfold String.rev at 2. cbn [String.rev_app].
  rewrite rev_app_append, rev_append, IH. reflexivity.
Qed.

Lemma all_space_append (x y : string) :
  all_space (x ++ y) = all_space x && all_space y.
Proof.
  induction x as [|a x IH]; rewrite ?append_nil_l, ?append_cons; cbn [all_space andb];
    [reflexivity|].
  now rewrite IH, andb_assoc.
Qed.

Lemma all_space_rev (x : string) : all_space (String.rev x) = all_space x.
Proof.
  induction x as [|a x IH]; [reflexivity|].
  unfold String.rev. cbn [String.rev_app]. rewrite rev_app_append, all_space_append, IH.
  cbn [all_space]. now rewrite andb_true_r, andb_comm.
Qed.

Lemma lstrip_spaces (l x : string) : all_space l = true -> lstrip (l ++ x) = lstrip x.
Proof.
  induction l as [|a l IH]; rewrite ?append_nil_l, ?append_cons; cbn [all_space lstrip];
    [reflexivity|].
  intros H. apply andb_prop in H as [Ha Hl]. rewrite Ha. now apply IH.
Qed.

Lemma lstrip_length (x : string) : (String.length (lstrip x) <= String.length x)%nat.
Proof.
  induction x as [|a x IH]; cbn [lstrip String.length]; [lia|].
  destruct (is_space a); cbn [String.length]; lia.
Qed.

Lemma lstrip_fixed_append (x y : string) :
  x <> "" -> lstrip x = x -> lstrip (x ++ y) = x ++ y.
Proof.
  destruct x as [|a x]; [contradiction|]. intros _.
  rewrite append_cons. cbn [lstrip].
  destruct (is_space a); [|reflexivity].
  intros H. pose proof (lstrip_length x) as Hl. rewrite H in Hl.
  cbn [String.length] in Hl. lia.
Qed.

Lemma lstrip_idempotent (x : string) : lstrip (lstrip x) = lstrip x.
Proof.
  induction x as [|a x IH]; cbn [lstrip]; [reflexivity|].
  destruct (is_space a) eqn:E; [assumption|]. cbn [lstrip]. now rewrite E.
Qed.

Lemma lstrip_all_space (x : string) : all_space x = true -> lstrip x = "".
Proof.
  induction x as [|a x IH]; cbn [all_space lstrip]; [reflexivity|].
  intros H. apply andb_prop in H as [-> H]. now apply IH.
Qed.

(** [lstrip] splits a string into leading whitespace and a rest that does
    not start with whitespace. *)
Lemma lstrip_split (x : string) :
  exists l, all_space l = true /\ x = l ++ lstrip x.
Proof.
  induction x as [|a x (l & Hl & IH)]; [now exists ""|].
  cbn [lstrip]. destruct (is_space a) eqn:E.
  - exists (String a l). cbn [all_space]. rewrite E, Hl, append_cons. now rewrite <- IH.
  - now exists "".
Qed.

Lemma strip_padding (l s r : string) :
  all_space l = true -> all_space r = true ->
  lstrip s = s -> rstrip s = s ->
  strip (l ++ s ++ r) = s.
Proof.
  intros Hl Hr Hs1 Hs2. unfold strip. rewrite (lstrip_spaces l) by assumption.
  destruct (string_dec s "") as [->|Hne].
  - rewrite append_nil_l, (lstrip_all_space r Hr). reflexivity.
  - rewrite (lstrip_fixed_append s r Hne Hs1).
    unfold rstrip in *. rewrite rev_append, lstrip_spaces by (now rewrite all_space_rev).
    exact Hs2.
Qed.

Lemma rstrip_split (y : string) :
  exists r, all_space r = true /\ y = rstrip y ++ r.
Proof.
  destruct (lstrip_split (String.rev y)) as (r' & Hr' & E).
  exists (String.rev r'). split; [now rewrite all_space_rev|].
  unfold rstrip. rewrite <- rev_append, <- E. now rewrite rev_involutive.
Qed.

Lemma rstrip_idempotent (y : string) : rstrip (rstrip y) = rstrip y.
Proof. unfold rstrip. now rewrite rev_involutive, lstrip_idempotent. Qed.

Lemma lstrip_rstrip_fixed (y : string) : lstrip y = y -> lstrip (rstrip y) = rstrip y.
Proof.
  intros Hy. destruct (rstrip_split y) as (r & Hr & E).
  destruct (rstrip y) as [|c z] eqn:Ez; [reflexivity|].
  rewrite E, append_cons in Hy. cbn [lstrip] in *.
  destruct (is_space c); [|reflexivity].
  pose proof (lstrip_length (z ++ r)) as Hl. rewrite Hy in Hl.
  cbn [String.length] in Hl. lia.
Qed.

(** X1. [str.strip] cuts a string into leading whitespace, the stripped
    string and trailing whitespace; the stripped string neither starts nor
    ends with whitespace; and padding such a string with whitespace on both
    sides is undone by stripping. *)
Theorem strip_spec (x : string) :
  (exists l r, all_space l = true /\ all_space r = true /\ x = l ++ strip x ++ r) /\
  lstrip (strip x) = strip x /\ rstrip (strip x) = strip x /\
  (forall l s r, all_space l = true -> all_space r = true ->
     lstrip s = s -> rstrip s = s -> strip (l ++ s ++ r) = s).
Proof.
  split; [|split; [|split]].
  - destruct (lstrip_split x) as (l & Hl & El).
    destruct (rstrip_split (lstrip x)) as (r & Hr & Er).
    exists l, r. split; [assumption|]. split; [assumption|].
    unfold strip. now rewrite <- Er.
  - unfold strip. apply lstrip_rstrip_fixed, lstrip_idempotent.
  - unfold strip. apply rstrip_idempotent.
  - exact strip_padding.
Qed.

(** ** The run, from loading to the country check *)


Lemma load_ok (df : DataFrame) :
  Forall (fun c => In c (map strip (columns df))) target_columns ->
  load_imoveis (Ok df) = ([], Done {| columns := map strip (columns df); rows := rows df |}).
Proof.
  intros H. unfold load_imoveis, try_except, lift, emit, st_stop,
    mbind, mret, script_bind, script_ret.
  cbn [columns rows].
  assert (E : forallb (fun col => mem col (map strip (columns df))) target_columns = true).
  { apply forallb_forall. intros c Hc. apply mem_In.
    rewrite List.Forall_forall in H. now apply H. }
  now rewrite E.
Qed.

Lemma load_missing (df : DataFrame) :
  ~ Forall (fun c => In c (map strip (columns df))) target_columns ->
  exists msg, load_imoveis (Ok df) = ([StError msg], Stopped).
Proof.
  intros H. unfold load_imoveis, try_except, lift, emit, st_stop,
    mbind, mret, script_bind, script_ret.
  cbn [columns rows].
  destruct (forallb (fun col => mem col (map strip (columns df))) target_columns) eqn:E.
  - exfalso. apply H. apply List.Forall_forall. intros c Hc. apply mem_In.
    rewrite forallb_forall in E. now apply E.
  - cbn [negb]. eexists. reflexivity.
Qed.

(** X3. The load step never dies of an exception. It returns a table only
    when the file was read and the four required columns are among its
    trimmed labels, and then shows nothing; otherwise it shows exactly one
    error and halts. *)
Theorem load_returns_or_halts (read : result DataFrame) :
  match load_imoveis read with
  | (out, Done loaded) =>
      out = [] /\
      exists df, read = Ok df /\
        loaded = {| columns := map strip (columns df); rows := rows df |} /\
        Forall (fun c => In c (columns loaded)) target_columns
  | (out, Stopped) => exists msg, out = [StError msg]
  | (_, Failed _) => False
  end.
Proof.
  destruct read as [df|e]; [|cbn; eauto].
  destruct (List.Forall_dec (fun c => In c (map strip (columns df)))
              (fun c => in_dec string_dec c (map strip (columns df))) target_columns) as [H|H].
  - rewrite (load_ok df H). split; [reflexivity|]. exists df. auto.
  - destruct (load_missing df H) as [msg ->]. eauto.
Qed.














(** X4. The snapshot of a dataset with at least one row is not empty, and
    all its rows have the same Year. *)
Theorem snapshot_of_nonempty_dataset (imoveis : DataFrame) :
  rows imoveis <> [] ->
  snapshot imoveis <> [] /\
  forall ir jr, In ir (snapshot imoveis) -> In jr (snapshot imoveis) ->
    Year (snd ir) = Year (snd jr).
Proof.
  intros Hne. split.
  - unfold snapshot. destruct (year_max _) as [m|] eqn:E.
    + apply year_max_spec in E as [Hin _].
      apply List.in_map_iff in Hin as (kr & Hk & Hkin).
      intros Hnil.
      assert (H : In kr (List.filter (fun ir => Year (snd ir) =? m) (rows imoveis))).
      { apply List.filter_In. split; [assumption|now apply Z.eqb_eq]. }
      rewrite Hnil in H. contradiction.
    + destruct (rows imoveis); [contradiction|discriminate].
  - intros ir jr Hi Hj. apply snapshot_spec in Hi as [Hi Hmi], Hj as [Hj Hmj].
    rewrite List.Forall_forall in Hmi, Hmj.
    specialize (Hmi jr Hj). specialize (Hmj ir Hi). cbv beta in *. lia.
Qed.

Lemma snapshot_of_nonempty_dataset_witness :
  snapshot df_two <> [] /\
  forall ir jr, In ir (snapshot df_two) -> In jr (snapshot df_two) ->
    Year (snd ir) = Year (snd jr).
Proof. apply snapshot_of_nonempty_dataset. discriminate. Defined.

(** ** Drill-down *)

Lemma unique_from_spec (l : list string) :
  forall seen,
    List.NoDup (unique_from seen l) /\
    (forall x, In x (unique_from seen l) <-> In x l /\ ~ In x seen).
Proof.
  induction l as [|y l IH]; intros seen; cbn [unique_from].
  - split; [constructor|]. cbn. tauto.
  - destruct (mem y seen) eqn:Hy.
    + apply mem_In in Hy. destruct (IH seen) as [Hnd Hin]. split; [assumption|].
      intros x. rewrite Hin. cbn. split; [tauto|].
      intros [[<-|H] Hn]; [contradiction|tauto].
    + assert (Hy' : ~ In y seen) by (rewrite <- mem_In; congruence).
      destruct (IH (y :: seen)) as [Hnd Hin]. split.
      * apply List.NoDup_cons; [|assumption]. rewrite Hin. cbn. tauto.
      * intros x. cbn [In]. rewrite Hin. cbn [In].
        destruct (string_dec y x) as [->|Hne]; [tauto|]. tauto.
Qed.

Lemma unique_from_NoDup (l : list string) :
  forall seen, List.NoDup l -> (forall x, In x l -> ~ In x seen) -> unique_from seen l = l.
Proof.
  induction l as [|y l IH]; intros seen Hnd Hs; cbn [unique_from]; [reflexivity|].
  apply List.NoDup_cons_iff in Hnd as [Hy Hnd].
  destruct (mem y seen) eqn:E.
  - apply mem_In in E. exfalso. apply (Hs y); [now left|assumption].
  - f_equal. apply IH; [assumption|].
    intros x Hx [<-|H]; [contradiction|]. apply (Hs x); [now right|assumption].
Qed.

Lemma country_options_In (dados : list (nat * Scored)) (c : string) :
  In c (country_options dados) <-> exists ir, In ir dados /\ Country (base (snd ir)) = c.
Proof.
  unfold country_options, unique.
  destruct (unique_from_spec (map (fun ir => Country (base (snd ir))) dados) []) as [_ Hin].
  rewrite Hin, List.in_map_iff. cbn. split.
  - intros [(ir & E & H) _]. eauto.
  - intros (ir & H & E). split; [eauto|tauto].
Qed.

(** X8. The options of the country select box are the Country labels of
    the snapshot, each once; when the labels of the snapshot are distinct
    the options are those labels in snapshot order. *)
Theorem country_options_spec (dados : list (nat * Scored)) :
  List.NoDup (country_options dados) /\
  (forall c, In c (country_options dados) <->
     exists ir, In ir dados /\ Country (base (snd ir)) = c) /\
  (List.NoDup (map (fun ir => Country (base (snd ir))) dados) ->
   country_options dados = map (fun ir => Country (base (snd ir))) dados).
Proof.
  split; [|split].
  - unfold country_options, unique. apply unique_from_spec.
  - apply country_options_In.
  - intros H. unfold country_options, unique.
    apply unique_from_NoDup; [assumption|]. cbn. tauto.
Qed.

(** X9. For every option of the select box the drill-down frame holds a
    row of the snapshot, so it is not empty, and it is made of exactly the
    rows of the dataset, of any year, with that Country label. *)
Theorem drill_down_of_an_option (imoveis : DataFrame) (pais_selecionado : string) :
  In pais_selecionado (country_options (with_score (snapshot imoveis))) ->
  (exists ir, In ir (snapshot imoveis) /\ In ir (dados_pais imoveis pais_selecionado)) /\
  (forall ir, In ir (dados_pais imoveis pais_selecionado) <->
     In ir (rows imoveis) /\ Country (snd ir) = pais_selecionado).
Proof.
  intros Hopt.
  assert (Hspec : forall ir, In ir (dados_pais imoveis pais_selecionado) <->
            In ir (rows imoveis) /\ Country (snd ir) = pais_selecionado).
  { intros ir. unfold dados_pais. rewrite List.filter_In. now rewrite String.eqb_eq. }
  split; [|exact Hspec].
  apply country_options_In in Hopt as (sr & Hsr & Hc).
  destruct (with_score_spec (snapshot imoveis)) as [Hmap _].
  assert (Hin : In (fst sr, base (snd sr)) (snapshot imoveis)).
  { rewrite <- Hmap. apply List.in_map_iff. now exists sr. }
  exists (fst sr, base (snd sr)). split; [assumption|].
  apply Hspec. split; [|assumption].
  now apply snapshot_spec in Hin as [Hin _].
Qed.

Lemma drill_down_of_an_option_witness :
  (exists ir, In ir (snapshot df_two) /\ In ir (dados_pais df_two "Peru")) /\
  (forall ir, In ir (dados_pais df_two "Peru") <->
     In ir (rows df_two) /\ Country (snd ir) = "Peru").
Proof. apply drill_down_of_an_option. right; left; reflexivity. Defined.

(** ** Converter *)

(** X15. On every response [get_exchange_rate] ends normally. It shows no
    notice when lines 260-270 returned a rate, and exactly one notice, with
    the fallback 1 as its result, when the request, the parser or one of
    those lines raised. *)
Theorem get_exchange_rate_always_returns (response : result pyval) (o d : string) :
  (exists taxa, get_exchange_rate response o d = ([], Done taxa) /\
     exists data, response = Ok data /\ rate_of_body data o d = Ok taxa) \/
  (exists e, get_exchange_rate response o d = ([rate_notice e], Done (PInt 1)) /\
     (response = Raise e \/ exists data, response = Ok data /\ rate_of_body data o d = Raise e)).
Proof.
  destruct response as [data|e].
  - destruct (rate_of_body data o d) as [v|e] eqn:E.
    + left. exists v. split; [now apply get_exchange_rate_ok|eauto].
    + right. exists e. split; [now apply get_exchange_rate_caught|eauto].
  - right. exists e. split; [apply get_exchange_rate_raised|now left].
Qed.

Lemma float_mul_rate (valor : float) (data : pyval) (o d : string) (taxa : pyval) :
  rate_of_body data o d = Ok taxa -> exists x, float_mul valor taxa = Ok x.
Proof.
  intros H. destruct (rate_of_body_inv _ _ _ _ H) as [->|(? & ? & ro & rd & _ & _ & _ & _ & _ & _ & Hq)].
  - unfold float_mul, as_number, to_double, mbind, result_bind.
    change (B64.is_infinite (B64.of_Z 1)) with false. cbv beta iota zeta. eauto.
  - destruct (py_truediv_is_float _ _ _ Hq) as [f ->].
    unfold float_mul, as_number, to_double, mbind, result_bind. eauto.
Qed.

(** X16. Whatever the response, the codes and the amount, the converter
    ends normally: it shows at most one notice and then writes one line with
    the converted value. *)
Theorem converter_never_crashes (response : result pyval) (o d : string) (valor : float) :
  exists notices x,
    converter response o d valor = ((notices ++ [converted_line o d x])%list, Done x) /\
    (notices = [] \/ exists e, notices = [rate_notice e]).
Proof.
  assert (Hone : exists x, float_mul valor (PInt 1) = Ok x).
  { unfold float_mul, as_number, to_double, mbind, result_bind.
    change (B64.is_infinite (B64.of_Z 1)) with false. cbv beta iota zeta. eauto. }
  destruct Hone as [x1 Hx1].
  destruct response as [data|e].
  - destruct (rate_of_body data o d) as [taxa|e] eqn:Hr.
    + destruct (float_mul_rate valor _ _ _ _ Hr) as [x Hx].
      exists [], x. split; [|now left].
      apply (converter_with_rate _ _ _ _ _ _ _ (get_exchange_rate_ok _ _ _ _ Hr) Hx).
    + exists [rate_notice e], x1. split; [|eauto].
      apply (converter_with_rate _ _ _ _ _ _ _ (get_exchange_rate_caught _ _ _ _ Hr) Hx1).
  - exists [rate_notice e], x1. split; [|eauto].
    apply (converter_with_rate _ _ _ _ _ _ _ (get_exchange_rate_raised e o d) Hx1).
Qed.

(** ** Padded column labels *)

Lemma padded_target_In (cols : list string) (c : string) :
  In c target_columns ->
  (exists l r, all_space l = true /\ all_space r = true /\ In (l ++ c ++ r)%string cols) ->
  In c (map strip cols).
Proof.
  intros Hc (l & r & Hl & Hr & Hin).
  assert (Hclean : lstrip c = c /\ rstrip c = c).
  { cbn in Hc. repeat destruct Hc as [<-|Hc]; try contradiction; split; reflexivity. }
  apply List.in_map_iff. exists (l ++ c ++ r)%string. split; [|assumption].
  now apply strip_padding.
Qed.

(** X2. A table where each required column appears under a label padded
    with whitespace on either side is loaded without any message. *)
Theorem padded_labels_are_accepted (df : DataFrame) :
  (forall c, In c target_columns ->
     exists l r, all_space l = true /\ all_space r = true /\
       In (l ++ c ++ r)%string (columns df)) ->
  load_imoveis (Ok df)
  = ([], Done {| columns := map strip (columns df); rows := rows df |}).
Proof.
  intros H. apply load_ok. apply List.Forall_forall. intros c Hc.
  apply padded_target_In; auto.
Qed.

(** ** The PDF report *)

Ltac div_mod_lia :=
  Z.div_mod_to_equations; lia.

Lemma summary_lines_spec (summary : list (string * string)) :
  forall y, 50 <= y <= 750 ->
    let n := Z.of_nat (length summary) in
    let '(ops, y') := summary_lines y summary in
    y' = final_position y n /\
    50 <= y' <= 750 /\
    Z.of_nat (length (List.filter is_show_page ops)) = page_breaks y n /\
    drawn_texts ops = map summary_text summary /\
    texts_within 50 750 ops.
Proof.
  induction summary as [|[column values] rest IH]; intros y Hy; cbn [summary_lines length].
  - assert (Hl : (0 <? lines_left y) = true)
      by (apply Z.ltb_lt; unfold lines_left; div_mod_lia).
    unfold final_position, page_breaks, texts_within. change (Z.of_nat 0) with 0.
    rewrite Hl. cbn [List.filter length drawn_texts map].
    repeat split; try lia; constructor.
  - rewrite Nat2Z.inj_succ. set (n := Z.of_nat (length rest)) in *.
    assert (Hn : 0 <= n) by (unfold n; lia). clearbody n.
    destruct (y - 20 <? 50) eqn:Ey.
    + apply Z.ltb_lt in Ey.
      specialize (IH 750 ltac:(lia)). cbv zeta in IH.
      destruct (summary_lines 750 rest) as [ops y'].
      destruct IH as (Hf & Hb & Hp & Ht & Hw).
      assert (Hl : lines_left y = 1) by (unfold lines_left; div_mod_lia).
      assert (Hl' : lines_left 750 = 36) by reflexivity.
      split; [|split; [assumption|split; [|split]]].
      * rewrite Hf. unfold final_position. rewrite Hl, Hl'.
        destruct (Z.ltb_spec (Z.succ n) 1) as [E1|E1]; [lia|].
        destruct (Z.ltb_spec n 36) as [E2|E2].
        -- replace (Z.succ n - 1) with n by lia.
           rewrite Z.mod_small by lia. lia.
        -- replace (Z.succ n - 1) with (n - 36 + 1 * 36) by lia.
           rewrite Z.mod_add by lia. reflexivity.
      * cbn [List.filter is_show_page length]. rewrite Nat2Z.inj_succ, Hp.
        unfold page_breaks. rewrite Hl, Hl'.
        destruct (Z.ltb_spec (Z.succ n) 1) as [E1|E1]; [lia|].
        destruct (Z.ltb_spec n 36) as [E2|E2].
        -- replace (Z.succ n - 1) with n by lia.
           rewrite Z.div_small by lia. lia.
        -- replace (Z.succ n - 1) with (n - 36 + 1 * 36) by lia.
           rewrite Z.div_add by lia. lia.
      * cbn [drawn_texts map]. now rewrite Ht.
      * unfold texts_within in *. repeat constructor; try lia. assumption.
    + apply Z.ltb_ge in Ey.
      specialize (IH (y - 20) ltac:(lia)). cbv zeta in IH.
      destruct (summary_lines (y - 20) rest) as [ops y'].
      destruct IH as (Hf & Hb & Hp & Ht & Hw).
      assert (Hl : lines_left (y - 20) = lines_left y - 1).
      { unfold lines_left. replace (y - 50) with (y - 20 - 50 + 1 * 20) by lia.
        rewrite Z.div_add by lia. lia. }
      assert (Hl1 : 1 <= lines_left (y - 20)) by (unfold lines_left; div_mod_lia).
      split; [|split; [assumption|split; [|split]]].
      * rewrite Hf. unfold final_position. rewrite Hl.
        replace (Z.succ n - lines_left y) with (n - (lines_left y - 1)) by lia.
        destruct (Z.ltb_spec n (lines_left y - 1)) as [E1|E1];
          destruct (Z.ltb_spec (Z.succ n) (lines_left y)) as [E2|E2];
          try reflexivity; lia.
      * cbn [List.filter is_show_page]. rewrite Hp. unfold page_breaks. rewrite Hl.
        replace (Z.succ n - lines_left y) with (n - (lines_left y - 1)) by lia.
        destruct (Z.ltb_spec n (lines_left y - 1)) as [E1|E1];
          destruct (Z.ltb_spec (Z.succ n) (lines_left y)) as [E2|E2];
          try reflexivity; lia.
      * cbn [drawn_texts map]. now rewrite Ht.
      * unfold texts_within in *. constructor; [lia|assumption].
Qed.

Lemma drawn_texts_app (a b : list pdf_op) :
  drawn_texts (a ++ b) = (drawn_texts a ++ drawn_texts b)%list.
Proof.
  induction a as [|op a IH]; [reflexivity|].
  destruct op; cbn [drawn_texts app]; now rewrite IH.
Qed.

Lemma summary_lines_text (summary : list (string * string)) :
  forall y, forallb is_text_op (fst (summary_lines y summary)) = true.
Proof.
  induction summary as [|[column values] rest IH]; intros y; cbn [summary_lines];
    [reflexivity|].
  destruct (y - 20 <? 50).
  - specialize (IH 750). destruct (summary_lines 750 rest) as [ops y']. exact IH.
  - specialize (IH (y - 20)). destruct (summary_lines (y - 20) rest) as [ops y']. exact IH.
Qed.

(** The call never gets past line 208. *)
Lemma generate_pdf_fails (summary : list (string * string)) (plot : result unit) :
  generate_pdf summary plot
  = (([SetFont "Helvetica-Bold" 16;
       DrawString 100 750 [Lit "Análise Descritiva dos Dados"];
       SetFont "Helvetica" 12;
       DrawString 50 700 [Lit "Resumo Estatístico dos Dados:"]]
      ++ fst (summary_lines 680 summary)
      ++ [DrawString 50 (snd (summary_lines 680 summary) - 40)
            [Lit "Gráfico - Crescimento do PIB"]])%list,
     Raise (match plot with Ok _ => AttributeError | Raise e => e end)).
Proof.
  unfold generate_pdf. destruct (summary_lines 680 summary) as [ops y].
  now destruct plot.
Qed.

(** X13. The report draws the title, the heading, one line per column of
    the summary, in order and with none lost at a page break, and the chart
    caption; every text is drawn with its baseline between 10 and 750. *)
Theorem pdf_draws_every_column_once (summary : list (string * string))
    (plot : result unit) :
  drawn_texts (fst (generate_pdf summary plot))
  = ([[Lit "Análise Descritiva dos Dados"]; [Lit "Resumo Estatístico dos Dados:"]]
     ++ map summary_text summary
     ++ [[Lit "Gráfico - Crescimento do PIB"]])%list /\
  texts_within 10 750 (fst (generate_pdf summary plot)).
Proof.
  rewrite generate_pdf_fails. cbn [fst].
  pose proof (summary_lines_spec summary 680 ltac:(lia)) as H. cbv zeta in H.
  destruct (summary_lines 680 summary) as [ops y].
  destruct H as (_ & Hy & _ & Ht & Hw). cbn [fst snd]. split.
  - rewrite !drawn_texts_app, Ht. reflexivity.
  - unfold texts_within in *. apply Forall_app. split; [repeat constructor; lia|].
    apply Forall_app. split.
    + revert Hw. apply List.Forall_impl. intros [] ; lia || auto.
    + repeat constructor; lia.
Qed.

(** X14. With n columns in the summary the canvas receives (n + 4) / 36
    page breaks; the cursor ends between 50 and 750, at 680 - 20 n on the
    first page and at 750 - 20 ((n - 32) mod 36) afterwards, and the last
    command received is the caption, 40 below the cursor. The call then
    fails: with the exception of the plotting calls if they raised, else
    with AttributeError at [drawInlineImage]. No image is drawn and the
    document is never saved. *)
Theorem pdf_page_breaks_and_failure (summary : list (string * string))
    (plot : result unit) :
  let n := Z.of_nat (length summary) in
  let y := if n <? 32 then 680 - 20 * n else 750 - 20 * ((n - 32) mod 36) in
  Z.of_nat (length (List.filter is_show_page (fst (generate_pdf summary plot))))
    = (n + 4) / 36 /\
  50 <= y <= 750 /\
  (exists body,
     fst (generate_pdf summary plot)
     = (body ++ [DrawString 50 (y - 40) [Lit "Gráfico - Crescimento do PIB"]])%list) /\
  snd (generate_pdf summary plot)
    = Raise (match plot with Ok _ => AttributeError | Raise e => e end) /\
  forallb is_text_op (fst (generate_pdf summary plot)) = true.
Proof.
  intros n y. rewrite generate_pdf_fails. cbn [fst snd].
  pose proof (summary_lines_text summary 680) as Htext.
  pose proof (summary_lines_spec summary 680 ltac:(lia)) as H. cbv zeta in H.
  destruct (summary_lines 680 summary) as [ops y'].
  destruct H as (Hf & Hy & Hp & _ & _). cbn [fst snd] in *.
  change (lines_left 680) with 32 in *.
  assert (Ey : y' = y) by (rewrite Hf; reflexivity).
  subst y'. split; [|split; [assumption|split; [|split; [reflexivity|]]]].
  - rewrite !List.filter_app, !length_app. cbn [List.filter is_show_page length].
    rewrite Nat.add_0_r, Nat.add_0_l, Hp. unfold page_breaks.
    change (lines_left 680) with 32. fold n.
    assert (Hn : 0 <= n) by (unfold n; lia). clearbody n.
    destruct (Z.ltb_spec n 32) as [E|E].
    + rewrite Z.div_small by lia. reflexivity.
    + replace (n + 4) with (n - 32 + 1 * 36) by lia. rewrite Z.div_add by lia. lia.
  - eexists. rewrite app_assoc. reflexivity.
  - rewrite !forallb_app, Htext. reflexivity.
Qed.

(** ** The train/test split *)

Lemma take_rows_nth {A} (data : list A) (idx : list nat) (l : list A) :
  take_rows data idx = Ok l -> map (nth_error data) idx = map Some l.
Proof.
  revert l. induction idx as [|i idx IH]; cbn [take_rows]; intros l.
  - now intros [= <-].
  - destruct (nth_error data i) as [x|] eqn:Hx; [|discriminate].
    unfold mbind, result_bind. destruct (take_rows data idx) as [xs|]; [|discriminate].
    intros [= <-]. cbn [map]. rewrite Hx. f_equal. now apply IH.
Qed.

Lemma take_rows_app {A} (data : list A) (i1 i2 : list nat) (l1 l2 : list A) :
  take_rows data i1 = Ok l1 -> take_rows data i2 = Ok l2 ->
  take_rows data (i1 ++ i2) = Ok (l1 ++ l2)%list.
Proof.
  revert l1. induction i1 as [|i i1 IH]; cbn [take_rows app]; intros l1.
  - now intros [= <-].
  - destruct (nth_error data i) as [x|]; [|discriminate].
    unfold mbind, result_bind. destruct (take_rows data i1) as [xs|]; [|discriminate].
    intros [= <-] H2. now rewrite (IH xs eq_refl H2).
Qed.

Lemma take_rows_length {A} (data : list A) (idx : list nat) (l : list A) :
  take_rows data idx = Ok l -> length l = length idx.
Proof.
  intros H. apply take_rows_nth in H. apply (f_equal (@length _)) in H.
  now rewrite !length_map in H.
Qed.

Lemma nth_error_seq {A} (data : list A) :
  map (nth_error data) (seq 0 (length data)) = map Some data.
Proof.
  induction data as [|x data IH] using rev_ind; [reflexivity|].
  rewrite length_app. cbn [length]. rewrite Nat.add_1_r, seq_S, !map_app. cbn [map].
  rewrite Nat.add_0_l, nth_error_app2, Nat.sub_diag by lia. cbn [nth_error].
  f_equal. rewrite <- IH. apply map_ext_in. intros i Hi. apply in_seq in Hi.
  now rewrite nth_error_app1 by lia.
Qed.

Lemma take_rows_permutation {A} (data : list A) (idx : list nat) (l : list A) :
  Permutation idx (seq 0 (length data)) ->
  take_rows data idx = Ok l -> Permutation l data.
Proof.
  intros Hp H. apply take_rows_nth in H.
  apply (Permutation_map (nth_error data)) in Hp. rewrite H, nth_error_seq in Hp.
  apply Permutation_map_inv in Hp as (l3 & E & Hp).
  assert (l3 = l).
  { clear -E. revert l3 E. induction l as [|x l IH]; intros [|y l3] E;
      try discriminate; try reflexivity.
    cbn [map] in E. injection E as -> E. f_equal. now apply IH. }
  subst l3. now symmetry.
Qed.

(** X10. When the shuffle is a permutation of the row positions and the
    split succeeds, the test rows followed by the training rows are a
    rearrangement of the dataset rows, none lost and none repeated; the
    training part is not empty and the test part has [n_test] rows. *)
Theorem split_partitions_the_rows {A} (permutation : nat -> list nat)
    (data train test : list A) :
  Permutation (permutation (length data)) (seq 0 (length data)) ->
  train_test_split permutation data = Ok (train, test) ->
  Permutation (test ++ train) data /\
  train <> [] /\
  n_test (length data) = Ok (length test) /\
  (length test < length data)%nat.
Proof.
  intros Hperm. unfold train_test_split, mbind, result_bind.
  destruct (n_test (length data)) as [nt|] eqn:Hnt; [|discriminate].
  destruct (Nat.eqb_spec (length data - nt) 0) as [|Hn]; [discriminate|].
  set (p := permutation (length data)) in *.
  assert (Hlen : length p = length data)
    by (rewrite (Permutation_length Hperm); apply length_seq).
  destruct (take_rows data (firstn nt p)) as [te|] eqn:Hte; [|discriminate].
  destruct (take_rows data (firstn _ (skipn nt p))) as [tr|] eqn:Htr; [|discriminate].
  intros [= <- <-].
  assert (Hall : firstn (length data - nt) (skipn nt p) = skipn nt p).
  { apply firstn_all2. rewrite length_skipn. lia. }
  rewrite Hall in Htr.
  pose proof (take_rows_app _ _ _ _ _ Hte Htr) as Happ.
  rewrite firstn_skipn in Happ.
  pose proof (take_rows_length _ _ _ Hte) as Lte.
  pose proof (take_rows_length _ _ _ Htr) as Ltr.
  rewrite length_firstn in Lte. rewrite length_skipn in Ltr.
  split; [now apply (take_rows_permutation data p)|].
  split; [intros ->; cbn in Ltr; lia|].
  split; [f_equal; lia|lia].
Qed.

Lemma padded_labels_are_accepted_witness :
  load_imoveis (Ok {| columns := [" Country"; "Year "; " GDP Growth (%) "; "Population Growth (%)"];
                      rows := [] |})
  = ([], Done {| columns := map strip [" Country"; "Year "; " GDP Growth (%) "; "Population Growth (%)"];
                 rows := [] |}).
Proof.
  apply (padded_labels_are_accepted
           {| columns := [" Country"; "Year "; " GDP Growth (%) "; "Population Growth (%)"];
              rows := [] |}).
  intros c Hc. cbn in Hc. destruct Hc as [<-|[<-|[<-|[<-|[]]]]].
  - exists " ", "". repeat split. left. reflexivity.
  - exists "", " ". repeat split. right; left. reflexivity.
  - exists " ", " ". repeat split. right; right; left. reflexivity.
  - exists "", "". repeat split. right; right; right; left. reflexivity.
Defined.

Lemma split_partitions_the_rows_witness :
  exists train test,
    train_test_split (fun n => rev (seq 0 n)) (year_gdp df_linear) = Ok (train, test) /\
    Permutation (test ++ train) (year_gdp df_linear) /\
    train <> [] /\
    n_test (length (year_gdp df_linear)) = Ok (length test) /\
    (length test < length (year_gdp df_linear))%nat.
Proof.
  eexists. eexists.
  assert (H : train_test_split (fun n => rev (seq 0 n)) (year_gdp df_linear)
              = Ok (map (fun k => (2000 + Z.of_nat k, B64.of_Z (2 * Z.of_nat k)))
                        [7; 6; 5; 4; 3; 2; 1; 0]%nat,
                    map (fun k => (2000 + Z.of_nat k, B64.of_Z (2 * Z.of_nat k)))
                        [9; 8]%nat))
    by (vm_compute; reflexivity).
  split; [exact H|].
  apply (split_partitions_the_rows (fun n => rev (seq 0 n)) (year_gdp df_linear) _ _);
    [|exact H].
  apply Permutation_sym, Permutation_rev.
Defined.

(** Padding of two blanks and a line feed around a clean label is removed. *)
Lemma strip_spec_witness :
  all_space "  " = true /\ all_space (String "010" "") = true /\
  lstrip "GDP_per_capita" = "GDP_per_capita" /\
  rstrip "GDP_per_capita" = "GDP_per_capita" /\
  strip ("  " ++ "GDP_per_capita" ++ String "010" "") = "GDP_per_capita".
Proof.
  split; [reflexivity|]. split; [reflexivity|].
  split; [reflexivity|]. split; [reflexivity|].
  apply (proj2 (proj2 (proj2 (strip_spec "")))); reflexivity.
Defined.


(** The snapshot of [df_two] holds two distinct labels: they are the options,
    in snapshot order. *)
Lemma country_options_spec_witness :
  List.NoDup (map (fun ir => Country (base (snd ir))) (with_score (snapshot df_two))) /\
  country_options (with_score (snapshot df_two)) = ["Chile"; "Peru"].
Proof.
  assert (H : List.NoDup (map (fun ir => Country (base (snd ir)))
                              (with_score (snapshot df_two)))).
  { vm_compute. repeat constructor; cbn; intuition congruence. }
  split; [exact H|].
  rewrite (proj2 (proj2 (country_options_spec _)) H). reflexivity.
Defined.
